(** * Bulk mixins of rest_framework_bulk (drf2/mixins.py)

    A shallow embedding of [BulkCreateModelMixin], [BulkUpdateModelMixin]
    and [BulkDestroyModelMixin].  The handlers are request-handling glue
    over a host framework, so the embedding has three layers:

    - [PyStr]: the Python 2 [unicode] operations the destroy handler uses
      to read its [idList] query parameter;
    - the run-time world (database table and call trace) with a small
      state-and-exception monad;
    - the handlers themselves, written over the host framework's
      serializer ([Framework]) and the view's settings and hooks
      ([View]), which they take as parameters. *)

From Stdlib Require Import ZArith Ascii String List Bool Lia.
From stdpp Require Import base option list gmap strings.

Import ListNotations.
Local Open Scope Z_scope.
Local Open Scope string_scope.
Local Open Scope list_scope.

(** ** Python 2 [unicode] strings

    A query parameter value is a [unicode] object.  It is modelled as a
    [string] whose characters are the code points 0..255 (Basic Latin and
    Latin-1 Supplement); the character classes below are those of the
    Unicode character database on that range. *)

Module PyStr.

Definition code (c : ascii) : N := N_of_ascii c.

(** [Py_UNICODE_ISSPACE]: what [unicode.strip()] removes. *)
Definition isspace_char (c : ascii) : bool :=
  let n := code c in
  ((9 <=? n) && (n <=? 13) || (28 <=? n) && (n <=? 32)
   || (n =? 133) || (n =? 160))%N.

(** Decimal digits (category Nd): the only characters [int()] accepts
    as digits. *)
Definition isdecimal_char (c : ascii) : bool :=
  let n := code c in ((48 <=? n) && (n <=? 57))%N.

(** [Py_UNICODE_ISNUMERIC]: characters with a numeric value.  On this
    range: the decimal digits, the superscripts U+00B2, U+00B3, U+00B9
    and the fractions U+00BC..U+00BE. *)
Definition isnumeric_char (c : ascii) : bool :=
  let n := code c in
  (isdecimal_char c || (n =? 178) || (n =? 179) || (n =? 185)
   || (188 <=? n) && (n <=? 190))%N.

Definition comma : ascii := ","%char.

(** [s.split(sep)] for a one-character separator: never the empty
    list, adjacent separators give empty pieces. *)
Fixpoint split (sep : ascii) (s : string) : list string :=
  match s with
  | EmptyString => [EmptyString]
  | String c s' =>
      if Ascii.eqb c sep then EmptyString :: split sep s'
      else match split sep s' with
           | [] => [String c EmptyString]
           | t :: ts => String c t :: ts
           end
  end.

Fixpoint lstrip (s : string) : string :=
  match s with
  | EmptyString => EmptyString
  | String c s' => if isspace_char c then lstrip s' else s
  end.

Fixpoint rstrip (s : string) : string :=
  match s with
  | EmptyString => EmptyString
  | String c s' =>
      match rstrip s' with
      | EmptyString => if isspace_char c then EmptyString
                       else String c EmptyString
      | r => String c r
      end
  end.

(** [x.strip()] *)
Definition strip (s : string) : string := rstrip (lstrip s).

Fixpoint all_chars (p : ascii -> bool) (s : string) : bool :=
  match s with
  | EmptyString => true
  | String c s' => p c && all_chars p s'
  end.

(** Truth value of a string: [filter(None, ...)] keeps the non-empty ones. *)
Definition truthy (s : string) : bool :=
  match s with EmptyString => false | _ => true end.

(** [x.isnumeric()]: at least one character and all of them numeric. *)
Definition isnumeric (s : string) : bool := truthy s && all_chars isnumeric_char s.

Definition isdecimal (s : string) : bool := truthy s && all_chars isdecimal_char s.

Definition digit_value (c : ascii) : Z := Z.of_N (code c) - 48.

Fixpoint decimal_value (acc : Z) (s : string) : Z :=
  match s with
  | EmptyString => acc
  | String c s' => decimal_value (10 * acc + digit_value c) s'
  end.

(** [int(x)] on a token that passed [x.isnumeric()].  Python's [int]
    also accepts a sign and surrounding white space; a string with
    either holds a non-numeric character and never reaches the call in
    [destroy], so those forms are left out: anything that is not a
    run of decimal digits is a [ValueError] here. *)
Definition int (s : string) : option Z :=
  if isdecimal s then Some (decimal_value 0 s) else None.

End PyStr.

(** ** Python values

    Request bodies, keyword arguments and response bodies are JSON-like
    Python values. *)

#[warnings="-register-all"] Inductive JSON :=
| JNull
| JBool (b : bool)
| JNum (z : Z)
| JStr (s : string)
| JList (l : list JSON)
| JDict (d : list (string * JSON)).

(** Truth value of a Python value, as [if x:] and [not x] compute it. *)
Definition truthy (x : JSON) : bool :=
  match x with
  | JNull => false
  | JBool b => b
  | JNum z => negb (Z.eqb z 0)
  | JStr s => PyStr.truthy s
  | JList l => match l with [] => false | _ => true end
  | JDict d => match d with [] => false | _ => true end
  end.

(** [isinstance(x, list)] *)
Definition is_list (x : JSON) : bool :=
  match x with JList _ => true | _ => false end.

(** ** Model instances and querysets

    A model instance has a primary key once it is stored.  Primary keys
    are the positive integers a database assigns. *)

Record Obj := mkObj { obj_pk : option positive; obj_fields : JSON }.

Definition DB := list Obj.

(** A queryset is lazy: a condition on rows, evaluated against the table
    when it is iterated. *)
Definition QuerySet := Obj -> bool.

Definition mem_Z (z : Z) (l : list Z) : bool := existsb (Z.eqb z) l.

(** [qs.filter(pk__in=ids)] *)
Definition filter_pk_in (ids : list Z) (qs : QuerySet) : QuerySet :=
  fun o => qs o && match obj_pk o with
                   | Some p => mem_Z (Z.pos p) ids
                   | None => false
                   end.

Definition qs_eval (qs : QuerySet) (d : DB) : list Obj := List.filter qs d.

(** The table without the row whose primary key is [p]. *)
Definition remove_pk (p : positive) (d : DB) : DB :=
  List.filter (fun r => negb (bool_decide (obj_pk r = Some p))) d.

(** [getattr(x, pk_name, None)] *)
Definition pk_value (o : Obj) : JSON :=
  match obj_pk o with Some p => JNum (Z.pos p) | None => JNull end.

(** ** Serializers, requests, responses *)

(** The arguments [get_serializer] passes to the serializer class. *)
Record Serializer := mkSerializer {
  ser_instance : option (list Obj);
  ser_init_data : JSON;
  ser_many : bool;
  ser_partial : bool;
  ser_allow_add_remove : bool
}.

(** [self.get_serializer(instance, data=.., many=.., partial=..,
    allow_add_remove=..)] with the framework's defaults for what a call
    leaves out. *)
Definition get_serializer (instance : option (list Obj)) (data : JSON)
    (many partial allow_add_remove : bool) : Serializer :=
  mkSerializer instance data many partial allow_add_remove.

(** Keyword arguments of [serializer.save]. *)
Record SaveKwargs := mkSave { force_insert : bool; force_update : bool }.

(** [request.QUERY_PARAMS] is a QueryDict: every key has a list of
    values and [get] answers with the last one. *)
Record Request := mkRequest {
  DATA : JSON;
  QUERY_PARAMS : gmap string (list string)
}.

Definition query_get (q : gmap string (list string)) (key : string) : option string :=
  match q !! key with
  | Some vs => last vs
  | None => None
  end.

Record Response := mkResponse { resp_data : option JSON; resp_status : Z }.

Definition HTTP_200_OK : Z := 200.
Definition HTTP_201_CREATED : Z := 201.
Definition HTTP_204_NO_CONTENT : Z := 204.
Definition HTTP_400_BAD_REQUEST : Z := 400.

(** ** Exceptions, the world and the handler monad *)

Inductive Exn :=
| ValidationError (message_dict : option JSON)
| ValueError (literal : string)
| TypeError
| AttributeError (name : string)
| OtherError (name : string).

Inductive Outcome (A : Type) :=
| Return (a : A)
| Raise (e : Exn).
Arguments Return {A} a.
Arguments Raise {A} e.

(** Calls the handlers make into the framework and into the view's
    hooks, in the order they happen. *)
Inductive Event :=
| EvIsValid (s : Serializer) (ok : bool)
| EvPreSave (o : Obj)
| EvPreBulkSave (objs : list Obj)
| EvSave (s : Serializer) (kw : SaveKwargs)
| EvPostBulkSave (objs : list Obj)
| EvPostSave (o : Obj) (created : bool)
| EvPreBulkUpdate (objs : list Obj)
| EvPostBulkUpdate (objs : list Obj)
| EvPreDelete (o : Obj)
| EvPreBulkDelete (objs : list Obj)
| EvDeleteObject (o : Obj)
| EvPostBulkDelete (objs : list Obj)
| EvPostDelete (o : Obj)
| EvSuperCreate
| EvSuperGetObject.

Record World := mkWorld { db : DB; trace : list Event }.

Definition M (A : Type) : Type := World -> Outcome A * World.

Definition ret {A} (a : A) : M A := fun w => (Return a, w).

Definition raise {A} (e : Exn) : M A := fun w => (Raise e, w).

Definition bind {A B} (m : M A) (k : A -> M B) : M B :=
  fun w => match m w with
           | (Return a, w') => k a w'
           | (Raise e, w') => (Raise e, w')
           end.

Declare Scope handler_scope.
Delimit Scope handler_scope with handler.
Bind Scope handler_scope with M.
Notation "x <- c1 ;; c2" := (bind c1 (fun x => c2))
  (at level 100, c1 at next level, c2 at level 200, right associativity) : handler_scope.
Notation "c1 ;; c2" := (bind c1 (fun _ => c2))
  (at level 100, c2 at level 200, right associativity) : handler_scope.
Local Open Scope handler_scope.

Definition get_db : M DB := fun w => (Return (db w), w).

(** An effect on the table, run as a call that the trace records. *)
Definition Effect (A : Type) : Type := DB -> Outcome A * DB.

Definition call {A} (ev : Event) (f : Effect A) : M A :=
  fun w => let (r, d) := f (db w) in
           (r, mkWorld d (trace w ++ [ev])).

(** A pure answer of the framework, recorded the same way. *)
Definition observe {A} (ev : Event) (a : A) : M A :=
  fun w => (Return a, mkWorld (db w) (trace w ++ [ev])).

(** [for x in xs: body(x)] *)
Fixpoint for_each {A} (body : A -> M unit) (xs : list A) : M unit :=
  match xs with
  | [] => ret tt
  | x :: xs' => body x ;; for_each body xs'
  end.

(** [def hook(self, ...): pass] *)
Definition pass {A} : A -> Effect unit := fun _ d => (Return tt, d).

Definition lift {A} (r : Outcome A) : M A := fun w => (r, w).

(** [try: body except ValidationError as err: handler(err.message_dict)];
    reading [message_dict] of an error that carries no mapping is an
    [AttributeError]. *)
Definition try_except_ValidationError {A} (body : M A) (handler : JSON -> M A) : M A :=
  fun w => match body w with
           | (Raise (ValidationError md), w') =>
               match md with
               | Some d => handler d w'
               | None => (Raise (AttributeError "message_dict"), w')
               end
           | other => other
           end.

(** [for item in x]: a list gives its items, a dict its keys, a string
    its characters; other values are not iterable. *)
Definition py_iter (x : JSON) : Outcome (list JSON) :=
  match x with
  | JList l => Return l
  | JDict d => Return (map (fun kv => JStr (fst kv)) d)
  | JStr s => Return (map (fun c => JStr (String c EmptyString)) (list_ascii_of_string s))
  | _ => Raise TypeError
  end.

(** [key in d] *)
Definition has_key {V} (key : string) (d : gmap string V) : bool :=
  bool_decide (is_Some (d !! key)).

(** ** The view and the host framework *)

(** What a view class composed with the mixins provides: its settings,
    its queryset and its hooks. *)
Record View := mkView {
  post_force_bulk : bool;
  post_allow_update : bool;
  lookup_url_kwarg : option string;
  lookup_field : string;
  pk_url_kwarg : string;
  slug_url_kwarg : string;
  view_kwargs : gmap string string;
  pk_name : string;
  get_queryset : QuerySet;
  filter_queryset : QuerySet -> QuerySet;
  pre_save : Obj -> Effect unit;
  post_save : Obj -> bool -> Effect unit;
  pre_delete : Obj -> Effect unit;
  post_delete : Obj -> Effect unit;
  pre_bulk_save : list Obj -> Effect unit;
  post_bulk_save : list Obj -> Effect unit;
  pre_bulk_update : list Obj -> Effect unit;
  post_bulk_update : list Obj -> Effect unit;
  pre_bulk_delete : list Obj -> Effect unit;
  post_bulk_delete : list Obj -> Effect unit
}.

(** What the handlers need from the host framework: the serializer
    class behind [get_serializer], the mapper's [pk__in] lookup and the
    two superclass methods.  [get_identity] answers with any Python
    value; [pk_lookup v p] says whether the mapper, which coerces the
    values it is given, takes the lookup value [v] to name the stored
    key [p]. *)
Record Framework := mkFramework {
  get_identity : JSON -> JSON;
  pk_lookup : JSON -> positive -> bool;
  is_valid : Serializer -> bool;
  errors : Serializer -> JSON;
  object : Serializer -> list Obj;
  data : Serializer -> list Obj -> JSON;
  save : Serializer -> SaveKwargs -> Effect (list Obj);
  delete_object : Obj -> Effect unit;
  super_create : View -> Request -> gmap string JSON -> Effect Response;
  super_get_object : View -> option QuerySet -> Effect Obj
}.

(** Lines 57-61 of [create]: the identities collected from the payload
    items; [if item_identity:] keeps the true ones, of whatever type. *)
Fixpoint collect_ids (fw : Framework) (items : list JSON) : list JSON :=
  match items with
  | [] => []
  | item :: rest =>
      let item_identity := get_identity fw item in
      if truthy item_identity then item_identity :: collect_ids fw rest
      else collect_ids fw rest
  end.

(** [qs.filter(pk__in=values)] for values as the payload sent them. *)
Definition filter_pk_in_values (fw : Framework) (values : list JSON)
    (qs : QuerySet) : QuerySet :=
  fun o => qs o && match obj_pk o with
                   | Some p => existsb (fun v => pk_lookup fw v p) values
                   | None => false
                   end.

(** [[int(x) for x in xs if x.isnumeric()]] *)
Fixpoint int_comprehension (xs : list string) : Outcome (list Z) :=
  match xs with
  | [] => Return []
  | x :: xs' =>
      if PyStr.isnumeric x then
        match PyStr.int x with
        | Some z => match int_comprehension xs' with
                    | Return zs => Return (z :: zs)
                    | Raise e => Raise e
                    end
        | None => Raise (ValueError x)
        end
      else int_comprehension xs'
  end.

(** Lines 177-178 of [destroy]: from the [idList] value to [del_list]. *)
Definition parse_id_list (del_list_value : string) : Outcome (list Z) :=
  let del_list_strs :=
    List.filter PyStr.truthy (map PyStr.strip (PyStr.split PyStr.comma del_list_value)) in
  int_comprehension del_list_strs.

(** ** The handlers *)

Section Handlers.

Variable fw : Framework.
Variable self : View.

Definition call_is_valid (s : Serializer) : M bool :=
  observe (EvIsValid s (is_valid fw s)) (is_valid fw s).

(** [CreateModelMixin.create], the superclass method. *)
Definition CreateModelMixin_create (request : Request) (kwargs : gmap string JSON) : M Response :=
  call EvSuperCreate (super_create fw self request kwargs).

(** [BulkCreateModelMixin.create].  The lazy [instance_qs] is read when
    the serializer first iterates it, in [is_valid]; nothing writes to
    the table before that, so it is evaluated where it is built.
    [serializer.save] returns [serializer.object], the list that
    [self.object] and the post hooks then read. *)
Definition create (request : Request) (kwargs : gmap string JSON) : M Response :=
  let post_force_bulk := default (JBool (post_force_bulk self)) (kwargs !! "post_force_bulk") in
  let kwargs := delete "post_force_bulk" kwargs in
  let post_allow_update := default (JBool (post_allow_update self)) (kwargs !! "post_allow_update") in
  let kwargs := delete "post_allow_update" kwargs in
  let bulk := is_list (DATA request) in
  if negb bulk && negb (truthy post_force_bulk) then
    CreateModelMixin_create request kwargs
  else
    let serializer := get_serializer None (DATA request) true false false in
    serializer <-
      (if truthy post_allow_update then
         items <- lift (py_iter (DATA request)) ;;
         let ids_list := collect_ids fw items in
         let instance_qs := filter_queryset self (get_queryset self) in
         let instance_qs := filter_pk_in_values fw ids_list instance_qs in
         d <- get_db ;;
         ret (get_serializer (Some (qs_eval instance_qs d)) (DATA request) true false true)
       else ret serializer) ;;
    valid <- call_is_valid serializer ;;
    if valid then
      let objs := object fw serializer in
      for_each (fun obj => call (EvPreSave obj) (pre_save self obj)) objs ;;
      call (EvPreBulkSave objs) (pre_bulk_save self objs) ;;
      let kw := mkSave (negb (truthy post_allow_update)) false in
      self_object <- call (EvSave serializer kw) (save fw serializer kw) ;;
      call (EvPostBulkSave self_object) (post_bulk_save self self_object) ;;
      for_each (fun obj => call (EvPostSave obj true) (post_save self obj true)) self_object ;;
      ret (mkResponse (Some (data fw serializer self_object)) HTTP_201_CREATED)
    else
      ret (mkResponse (Some (errors fw serializer)) HTTP_400_BAD_REQUEST).

(** [BulkUpdateModelMixin.get_object]; [None] is the plain [return]. *)
Definition get_object (queryset : option QuerySet) : M (option Obj) :=
  let lookup_url_kwarg :=
    match lookup_url_kwarg self with
    | Some k => if PyStr.truthy k then k else lookup_field self
    | None => lookup_field self
    end in
  if has_key lookup_url_kwarg (view_kwargs self)
     || has_key (pk_url_kwarg self) (view_kwargs self)
     || has_key (slug_url_kwarg self) (view_kwargs self)
  then o <- call EvSuperGetObject (super_get_object fw self queryset) ;; ret (Some o)
  else ret None.

(** [BulkUpdateModelMixin.bulk_update].  The [try] covers the per-item
    [pre_save] loop only; its [except] branch returns from the handler. *)
Definition bulk_update (request : Request) (kwargs : gmap string JSON) : M Response :=
  let partial := default (JBool false) (kwargs !! "partial") in
  d <- get_db ;;
  let serializer :=
    get_serializer (Some (qs_eval (filter_queryset self (get_queryset self)) d))
                   (DATA request) true (truthy partial) false in
  valid <- call_is_valid serializer ;;
  if valid then
    let objs := object fw serializer in
    early <- try_except_ValidationError
               (for_each (fun obj => call (EvPreSave obj) (pre_save self obj)) objs ;;
                ret None)
               (fun message_dict =>
                  ret (Some (mkResponse (Some message_dict) HTTP_400_BAD_REQUEST))) ;;
    match early with
    | Some response => ret response
    | None =>
        call (EvPreBulkUpdate objs) (pre_bulk_update self objs) ;;
        let kw := mkSave false true in
        self_object <- call (EvSave serializer kw) (save fw serializer kw) ;;
        call (EvPostBulkUpdate self_object) (post_bulk_update self self_object) ;;
        for_each (fun obj => call (EvPostSave obj false) (post_save self obj false)) self_object ;;
        ret (mkResponse (Some (data fw serializer self_object)) HTTP_200_OK)
    end
  else
    ret (mkResponse (Some (errors fw serializer)) HTTP_400_BAD_REQUEST).

(** [BulkUpdateModelMixin.partial_bulk_update] *)
Definition partial_bulk_update (request : Request) (kwargs : gmap string JSON) : M Response :=
  bulk_update request (<["partial" := JBool true]> kwargs).

(** The serializer [destroy] builds over the rows it is about to delete. *)
Definition destroy_serializer (filtered : list Obj) : Serializer :=
  get_serializer (Some filtered)
                 (JList (map (fun x => JDict [(pk_name self, pk_value x)]) filtered))
                 true true false.

(** [BulkDestroyModelMixin.destroy].  [filtered] is read once, by the
    comprehension that builds the serializer's data. *)
Definition destroy (request : Request) (kwargs : gmap string JSON) : M Response :=
  let qs := filter_queryset self (get_queryset self) in
  match query_get (QUERY_PARAMS request) "idList" with
  | None => ret (mkResponse None HTTP_400_BAD_REQUEST)
  | Some del_list_value =>
      del_list <- lift (parse_id_list del_list_value) ;;
      d <- get_db ;;
      let filtered := qs_eval (filter_pk_in del_list qs) d in
      let serializer := destroy_serializer filtered in
      valid <- call_is_valid serializer ;;
      if valid then
        let objs := object fw serializer in
        for_each (fun obj => call (EvPreDelete obj) (pre_delete self obj)) objs ;;
        call (EvPreBulkDelete objs) (pre_bulk_delete self objs) ;;
        for_each (fun obj => call (EvDeleteObject obj) (delete_object fw obj)) objs ;;
        call (EvPostBulkDelete objs) (post_bulk_delete self objs) ;;
        for_each (fun obj => call (EvPostDelete obj) (post_delete self obj)) objs ;;
        ret (mkResponse None HTTP_204_NO_CONTENT)
      else
        ret (mkResponse (Some (errors fw serializer)) HTTP_400_BAD_REQUEST)
  end.

End Handlers.

(** ** A reference host

    One framework and one view to run the handlers on: the behaviour of
    the host's [many=True] model serializer and of the mapper's
    [save]/[delete], reduced to what the handlers use.  The theorems
    about the handlers are stated for every framework and view; this one
    instantiates them. *)

Module Reference.

Definition dict_get (key : string) (d : list (string * JSON)) : option JSON :=
  match List.find (fun kv => String.eqb (fst kv) key) d with
  | Some kv => Some (snd kv)
  | None => None
  end.

(** [data.get('id', None)], and [None] when [data] is not a dict. *)
Definition get_identity (item : JSON) : JSON :=
  match item with
  | JDict d => default JNull (dict_get "id" d)
  | _ => JNull
  end.

(** An identity is the key of an instance in [identity_to_objects] when
    it equals the instance's integer key as dict keys do: a number, or
    [True] for 1; a string never equals a number. *)
Definition has_identity (i : JSON) (o : Obj) : bool :=
  match i, obj_pk o with
  | JNum z, Some p => Z.eqb z (Z.pos p)
  | JBool true, Some p => Pos.eqb p 1
  | _, _ => false
  end.

(** [int(s)] for a string: white space around, a sign, decimal digits. *)
Definition int_of_str (s : string) : option Z :=
  match PyStr.strip s with
  | String "+" digits => PyStr.int digits
  | String "-" digits => Z.opp <$> PyStr.int digits
  | digits => PyStr.int digits
  end.

(** The mapper's [pk__in] on an integer key: the lookup value goes
    through [int(value)], so the string ["2"] names key 2.  A value
    that [int] refuses is the mapper's error; here it names no key. *)
Definition pk_lookup (v : JSON) (p : positive) : bool :=
  match v with
  | JNum z => Z.eqb z (Z.pos p)
  | JBool b => Z.eqb (if b then 1 else 0) (Z.pos p)
  | JStr s => match int_of_str s with
              | Some z => Z.eqb z (Z.pos p)
              | None => false
              end
  | _ => false
  end.

(** [identity_to_objects.pop(identity, None)] *)
Fixpoint pop_identity (i : JSON) (objs : list Obj) : option Obj * list Obj :=
  match objs with
  | [] => (None, [])
  | o :: rest =>
      if has_identity i o then (Some o, rest)
      else let (found, rest') := pop_identity i rest in (found, o :: rest')
  end.

Definition item_ok (item : JSON) : bool :=
  match item with JDict _ => true | _ => false end.

(** [restore_object]: the writable fields of the item ([id] is read
    only); a partial update keeps the fields the item leaves out. *)
Definition writable (item : JSON) : list (string * JSON) :=
  match item with
  | JDict d => List.filter (fun kv => negb (String.eqb (fst kv) "id")) d
  | _ => []
  end.

Definition restore_fields (partial : bool) (old : JSON) (item : JSON) : JSON :=
  let new := writable item in
  match old with
  | JDict d =>
      if partial then
        JDict (List.filter (fun kv => negb (bool_decide (is_Some (dict_get (fst kv) new)))) d ++ new)
      else JDict new
  | _ => JDict new
  end.

(** One result per payload item ([None] where the item is in error) and
    the instances no item asked for. *)
Fixpoint restore_items (update allow_add_remove partial : bool) (instances : list Obj)
    (items : list JSON) : list (option Obj) * list Obj :=
  match items with
  | [] => ([], instances)
  | item :: rest =>
      let (target, instances') :=
        if update then pop_identity (get_identity item) instances
        else (None, instances) in
      let restored :=
        match target with
        | Some o =>
            if item_ok item
            then Some (mkObj (obj_pk o) (restore_fields partial (obj_fields o) item))
            else None
        | None =>
            if update && negb allow_add_remove then None
            else if item_ok item then Some (mkObj None (JDict (writable item))) else None
        end in
      let (results, left) :=
        restore_items update allow_add_remove partial instances' rest in
      (restored :: results, left)
  end.

Definition restored (s : Serializer) : list (option Obj) * list Obj :=
  match ser_init_data s with
  | JList items =>
      restore_items (bool_decide (is_Some (ser_instance s))) (ser_allow_add_remove s)
                    (ser_partial s) (default [] (ser_instance s)) items
  | _ => ([None], [])
  end.

Definition is_valid (s : Serializer) : bool :=
  forallb (fun r => bool_decide (is_Some r)) (fst (restored s)).

Definition object (s : Serializer) : list Obj := omap id (fst (restored s)).

Definition item_errors (r : option Obj) : JSON :=
  match r with
  | Some _ => JDict []
  | None => JDict [("non_field_errors", JList [JStr "Invalid item."])]
  end.

Definition errors (s : Serializer) : JSON :=
  if is_valid s then JList [] else JList (map item_errors (fst (restored s))).

Definition to_native (o : Obj) : JSON :=
  JDict [("id", pk_value o); ("fields", obj_fields o)].

Definition data (s : Serializer) (objs : list Obj) : JSON := JList (map to_native objs).

Definition pk_exists (p : positive) (d : DB) : bool :=
  existsb (fun r => bool_decide (obj_pk r = Some p)) d.

Definition next_pk (d : DB) : positive :=
  Pos.succ (fold_right (fun r m => match obj_pk r with Some p => Pos.max p m | None => m end) 1%positive d).

Definition update_row (o : Obj) (d : DB) : DB :=
  map (fun r => if bool_decide (obj_pk r = obj_pk o) then o else r) d.

(** [obj.save(force_insert=.., force_update=..)] *)
Definition save_object (kw : SaveKwargs) (o : Obj) : Effect Obj :=
  fun d =>
    match obj_pk o with
    | None =>
        if force_update kw then (Raise (ValueError "pk"), d)
        else let o' := mkObj (Some (next_pk d)) (obj_fields o) in (Return o', d ++ [o'])
    | Some p =>
        if pk_exists p d then
          if force_insert kw then (Raise (OtherError "IntegrityError"), d)
          else (Return o, update_row o d)
        else
          if force_update kw then (Raise (OtherError "DatabaseError"), d)
          else (Return o, d ++ [o])
    end.

Fixpoint save_all (kw : SaveKwargs) (objs : list Obj) : Effect (list Obj) :=
  fun d =>
    match objs with
    | [] => (Return [], d)
    | o :: rest =>
        match save_object kw o d with
        | (Return o', d') =>
            match save_all kw rest d' with
            | (Return os, d'') => (Return (o' :: os), d'')
            | (Raise e, d'') => (Raise e, d'')
            end
        | (Raise e, d') => (Raise e, d')
        end
    end.

(** [obj.delete()] *)
Definition delete_object (o : Obj) : Effect unit :=
  fun d =>
    match obj_pk o with
    | Some p => (Return tt, remove_pk p d)
    | None => (Raise (OtherError "AssertionError"), d)
    end.

(** [serializer.save] with keyword arguments [kw]: save every object, then delete the
    instances that [allow_add_remove] found no item for. *)
Definition save (s : Serializer) (kw : SaveKwargs) : Effect (list Obj) :=
  fun d =>
    match save_all kw (object s) d with
    | (Return os, d') =>
        let deleted := if ser_allow_add_remove s then snd (restored s) else [] in
        (Return os, fold_left (fun acc o => snd (delete_object o acc)) deleted d')
    | (Raise e, d') => (Raise e, d')
    end.

(** The framework's single-object create. *)
Definition super_create (v : View) (request : Request) (kwargs : gmap string JSON) : Effect Response :=
  fun d =>
    if item_ok (DATA request) then
      let o := mkObj None (DATA request) in
      match pre_save v o d with
      | (Return _, d1) =>
          match save_object (mkSave true false) o d1 with
          | (Return o', d2) =>
              match post_save v o' true d2 with
              | (Return _, d3) => (Return (mkResponse (Some (to_native o')) HTTP_201_CREATED), d3)
              | (Raise e, d3) => (Raise e, d3)
              end
          | (Raise e, d2) => (Raise e, d2)
          end
      | (Raise e, d1) => (Raise e, d1)
      end
    else (Return (mkResponse (Some (item_errors None)) HTTP_400_BAD_REQUEST), d).

(** The framework's single-object lookup: the row of the filtered
    queryset that the URL's lookup value, or else its [pk] value, names. *)
Definition super_get_object (v : View) (queryset : option QuerySet) : Effect Obj :=
  fun d =>
    let lookup_url_kwarg :=
      match lookup_url_kwarg v with
      | Some k => if PyStr.truthy k then k else lookup_field v
      | None => lookup_field v
      end in
    let value :=
      match view_kwargs v !! lookup_url_kwarg with
      | Some x => Some x
      | None => view_kwargs v !! pk_url_kwarg v
      end in
    let rows := qs_eval (filter_queryset v (default (get_queryset v) queryset)) d in
    match value with
    | Some x =>
        match List.find (fun o => match obj_pk o with
                                  | Some p => pk_lookup (JStr x) p
                                  | None => false
                                  end) rows with
        | Some o => (Return o, d)
        | None => (Raise (OtherError "Http404"), d)
        end
    | None => (Raise (OtherError "Http404"), d)
    end.

Definition framework : Framework :=
  mkFramework get_identity pk_lookup is_valid errors object data save
              delete_object super_create super_get_object.

(** A view with the framework's and the mixins' defaults: every hook is
    [pass], the queryset is the whole table. *)
Definition view : View :=
  mkView false false None "pk" "pk" "slug" ∅ "id"
         (fun _ => true) (fun qs => qs)
         pass (fun o _ => pass o) pass pass
         pass pass pass pass pass pass.

(** The same view reached through a detail URL: [pk] is in its kwargs. *)
Definition detail_view : View :=
  mkView false false None "pk" "pk" "slug" {[ "pk" := "3" ]} "id"
         (fun _ => true) (fun qs => qs)
         pass (fun o _ => pass o) pass pass
         pass pass pass pass pass pass.

(** A [pre_save] hook that cleans the instance: a blank name is a
    validation error with a field/message mapping. *)
Definition blank_name : JSON :=
  JDict [("name", JList [JStr "This field cannot be blank."])].

Definition pre_save_full_clean (o : Obj) : Effect unit :=
  fun d =>
    match obj_fields o with
    | JDict f =>
        match dict_get "name" f with
        | Some (JStr EmptyString) => (Raise (ValidationError (Some blank_name)), d)
        | _ => (Return tt, d)
        end
    | _ => (Return tt, d)
    end.

Definition cleaning_view : View :=
  mkView false false None "pk" "pk" "slug" ∅ "id"
         (fun _ => true) (fun qs => qs)
         pre_save_full_clean (fun o _ => pass o) pass pass
         pass pass pass pass pass pass.

Definition row (p : positive) (name : string) : Obj :=
  mkObj (Some p) (JDict [("name", JStr name)]).

Definition table : DB := [row 1 "a"; row 2 "b"; row 3 "c"; row 4 "d"; row 5 "e"].

Definition world : World := mkWorld table [].

Definition request_with (body : JSON) (params : list (string * list string)) : Request :=
  mkRequest body (list_to_map params).

End Reference.

(** ** More views on the reference host *)

Module Views.

(** A view over a model whose primary key field is named [code]: the
    reference serializer reads identities from [id] and finds none in
    the data [destroy] builds. *)
Definition code_view : View :=
  mkView false false None "pk" "pk" "slug" ∅ "code"
         (fun _ => true) (fun qs => qs)
         pass (fun o _ => pass o) pass pass
         pass pass pass pass pass pass.

(** A hook that refuses row 2. *)
Definition refuse_row_2 (o : Obj) : Effect unit :=
  fun d =>
    match obj_pk o with
    | Some 2%positive => (Raise (OtherError "PermissionDenied"), d)
    | _ => (Return tt, d)
    end.

(** A view whose [pre_delete] refuses row 2. *)
Definition guarded_delete_view : View :=
  mkView false false None "pk" "pk" "slug" ∅ "id"
         (fun _ => true) (fun qs => qs)
         pass (fun o _ => pass o) refuse_row_2 pass
         pass pass pass pass pass pass.

(** A view whose [pre_save] refuses row 2. *)
Definition guarded_save_view : View :=
  mkView false false None "pk" "pk" "slug" ∅ "id"
         (fun _ => true) (fun qs => qs)
         refuse_row_2 (fun o _ => pass o) pass pass
         pass pass pass pass pass pass.

(** A batch hook that runs model validation and fails. *)
Definition batch_invalid (objs : list Obj) : Effect unit :=
  fun d => (Raise (ValidationError (Some Reference.blank_name)), d).

(** A view whose [pre_bulk_update] fails validation. *)
Definition batch_cleaning_view : View :=
  mkView false false None "pk" "pk" "slug" ∅ "id"
         (fun _ => true) (fun qs => qs)
         pass (fun o _ => pass o) pass pass
         pass pass batch_invalid pass pass pass.

(** A hook that refuses row 2 with a validation error built from a
    message, which carries no field/message mapping. *)
Definition invalid_row_2 (o : Obj) : Effect unit :=
  fun d =>
    match obj_pk o with
    | Some 2%positive => (Raise (ValidationError None), d)
    | _ => (Return tt, d)
    end.

(** A view whose [pre_save] raises that error on row 2. *)
Definition message_error_view : View :=
  mkView false false None "pk" "pk" "slug" ∅ "id"
         (fun _ => true) (fun qs => qs)
         invalid_row_2 (fun o _ => pass o) pass pass
         pass pass pass pass pass pass.

(** A view that forces bulk mode and allows updates. *)
Definition forced_update_view : View :=
  mkView true true None "pk" "pk" "slug" ∅ "id"
         (fun _ => true) (fun qs => qs)
         pass (fun o _ => pass o) pass pass
         pass pass pass pass pass pass.

End Views.

(** ** Vocabulary of the statements *)

(** A hook that returns normally and leaves the table alone, as the
    default [pass] does. *)
Definition neutral {A} (h : A -> Effect unit) : Prop :=
  forall a d, h a d = (Return tt, d).

(** The mapper's contract for [delete_object]: deleting a stored object
    removes the row with its primary key. *)
Definition deletes_by_pk (fw : Framework) : Prop :=
  forall o p d, obj_pk o = Some p -> delete_object fw o d = (Return tt, remove_pk p d).

(** Primary keys identify rows. *)
Definition unique_pks (d : DB) : Prop := NoDup (map obj_pk d).

(** The table after deleting the objects of [objs], one by one. *)
Definition remove_objs (objs : list Obj) (d : DB) : DB :=
  fold_left (fun acc o => match obj_pk o with
                          | Some p => remove_pk p acc
                          | None => acc
                          end) objs d.

(** A per-item hook run over a list, on the table alone. *)
Fixpoint each_effect {A} (h : A -> Effect unit) (xs : list A) : Effect unit :=
  fun d =>
    match xs with
    | [] => (Return tt, d)
    | x :: xs' =>
        match h x d with
        | (Return _, d') => each_effect h xs' d'
        | (Raise e, d') => (Raise e, d')
        end
    end.

(** The tokens of an [idList] value: its comma-separated pieces,
    stripped, without the empty ones; and the numeric ones among them. *)
Definition tokens (v : string) : list string :=
  List.filter PyStr.truthy (map PyStr.strip (PyStr.split PyStr.comma v)).

Definition numeric_tokens (v : string) : list string :=
  List.filter PyStr.isnumeric (tokens v).

(** The key [get_object] looks up first: [lookup_url_kwarg or lookup_field]. *)
Definition lookup_key (self : View) : string :=
  match lookup_url_kwarg self with
  | Some k => if PyStr.truthy k then k else lookup_field self
  | None => lookup_field self
  end.

(** The values [create] reads its two settings from: the keyword
    argument when given, the view attribute otherwise. *)
Definition effective_force_bulk (self : View) (kwargs : gmap string JSON) : JSON :=
  default (JBool (post_force_bulk self)) (kwargs !! "post_force_bulk").

Definition effective_allow_update (self : View) (kwargs : gmap string JSON) : JSON :=
  default (JBool (post_allow_update self)) (kwargs !! "post_allow_update").

(** [create] takes the bulk path. *)
Definition bulk_path (self : View) (request : Request) (kwargs : gmap string JSON) : bool :=
  is_list (DATA request) || truthy (effective_force_bulk self kwargs).



Definition is_save (e : Event) : bool :=
  match e with EvSave _ _ => true | _ => false end.



(** U+00B2 SUPERSCRIPT TWO: numeric, not a decimal digit. *)
Definition superscript_two : string := String (ascii_of_N 178) EmptyString.

(** The four delete hooks of a view are neutral. *)
Definition delete_hooks_neutral (self : View) : Prop :=
  neutral (pre_delete self) /\ neutral (pre_bulk_delete self) /\
  neutral (post_bulk_delete self) /\ neutral (post_delete self).

(** Some object of [objs] carries the primary key of row [r]. *)
Definition deleted_by (objs : list Obj) (r : Obj) : bool :=
  existsb (fun k => match k with
                    | Some p => bool_decide (obj_pk r = Some p)
                    | None => false
                    end) (map obj_pk objs).

(** The rows [destroy] selects for the parsed identifiers [ids]. *)
Definition destroy_queryset (self : View) (ids : list Z) : QuerySet :=
  filter_pk_in ids (filter_queryset self (get_queryset self)).

(** Running [m] appends to the trace, and only events that satisfy [P]. *)
Definition appends {A} (P : Event -> Prop) (m : M A) : Prop :=
  forall w, exists evs, trace (snd (m w)) = trace w ++ evs /\ Forall P evs.

(** An event that, if it is a call of [serializer.save], is the call on
    serializer [s] with keyword arguments [kw]. *)
Definition save_with (s : Serializer) (kw : SaveKwargs) (e : Event) : Prop :=
  match e with
  | EvSave s' kw' => s' = s /\ kw' = kw
  | _ => True
  end.

(** The serializer [create] rebuilds when updates are allowed, over the
    payload items [items] and the table [d]. *)
Definition update_target (fw : Framework) (self : View) (items : list JSON) (d : DB) : list Obj :=
  qs_eval (filter_pk_in_values fw (collect_ids fw items)
             (filter_queryset self (get_queryset self))) d.

(** The serializer [bulk_update] builds. *)
Definition update_serializer (self : View) (request : Request)
    (kwargs : gmap string JSON) (d : DB) : Serializer :=
  get_serializer (Some (qs_eval (filter_queryset self (get_queryset self)) d))
                 (DATA request) true
                 (truthy (default (JBool false) (kwargs !! "partial"))) false.

(** The serializer [create] validates on its bulk path over the table
    [d] (lines 52-70): the plain [many=True] one, or, when updates are
    allowed, the one rebuilt over the update target, for which the
    payload is iterated first. *)
Definition create_serializer (fw : Framework) (self : View) (request : Request)
    (kwargs : gmap string JSON) (d : DB) : Outcome Serializer :=
  if truthy (effective_allow_update self kwargs) then
    match py_iter (DATA request) with
    | Return items =>
        Return (get_serializer (Some (update_target fw self items d))
                               (DATA request) true false true)
    | Raise e => Raise e
    end
  else Return (get_serializer None (DATA request) true false false).

Definition is_super_create (e : Event) : bool :=
  match e with EvSuperCreate => true | _ => false end.

(** * Properties *)

(** ** The [idList] parser *)

Example split_pieces : PyStr.split PyStr.comma "1, 2,,x" = ["1"; " 2"; ""; "x"].
Proof. reflexivity. Qed.

Example strip_both_sides : PyStr.strip "  12 3 " = "12 3".
Proof. reflexivity. Qed.

Example int_leading_zero : PyStr.int "0123" = Some 123.
Proof. reflexivity. Qed.

Example parse_mixed : parse_id_list " 7 ,x1,, 42,-3" = Return [7; 42].
Proof. reflexivity. Qed.

Lemma split_not_nil sep s : PyStr.split sep s <> [].
Proof.
  destruct s as [|c s]; simpl; [discriminate|].
  destruct (Ascii.eqb c sep); [discriminate|].
  destruct (PyStr.split sep s); discriminate.
Qed.

Lemma isdecimal_char_numeric c :
  PyStr.isdecimal_char c = true -> PyStr.isnumeric_char c = true.
Proof. unfold PyStr.isnumeric_char. intros ->. reflexivity. Qed.

Lemma isdecimal_isnumeric s : PyStr.isdecimal s = true -> PyStr.isnumeric s = true.
Proof.
  unfold PyStr.isdecimal, PyStr.isnumeric.
  intros H. apply andb_prop in H as [Ht Ha]. rewrite Ht. simpl.
  clear Ht. induction s as [|c s IH]; simpl in *; [reflexivity|].
  apply andb_prop in Ha as [Hc Hs].
  rewrite (isdecimal_char_numeric _ Hc). auto.
Qed.

(** The comprehension raises at the first numeric token that is not a
    run of decimal digits, and only there. *)
Lemma int_comprehension_decimal xs :
  (forall t, In t xs -> PyStr.isnumeric t = true -> PyStr.isdecimal t = true) ->
  int_comprehension xs
  = Return (map (PyStr.decimal_value 0) (List.filter PyStr.isnumeric xs)).
Proof.
  induction xs as [|x xs IH]; intros Hdec; simpl; [reflexivity|].
  destruct (PyStr.isnumeric x) eqn:Hnum.
  - unfold PyStr.int. rewrite (Hdec x (or_introl eq_refl) Hnum).
    rewrite IH; [reflexivity|]. intros t Ht. apply Hdec. now right.
  - apply IH. intros t Ht. apply Hdec. now right.
Qed.

Lemma int_comprehension_Return xs ids :
  int_comprehension xs = Return ids ->
  ids = map (PyStr.decimal_value 0) (List.filter PyStr.isnumeric xs).
Proof.
  revert ids. induction xs as [|x xs IH]; intros ids; simpl.
  - now intros [= <-].
  - destruct (PyStr.isnumeric x); [|apply IH].
    unfold PyStr.int. destruct (PyStr.isdecimal x); [|discriminate].
    destruct (int_comprehension xs) as [zs|e]; [|discriminate].
    intros [= <-]. simpl. f_equal. now apply IH.
Qed.

(** On values whose numeric tokens are runs of decimal digits the
    parser is the pipeline: split on commas, strip, drop the empty
    pieces, drop the non-numeric tokens, convert the rest. *)
Lemma parse_id_list_decimal v :
  (forall t, In t (numeric_tokens v) -> PyStr.isdecimal t = true) ->
  parse_id_list v = Return (map (PyStr.decimal_value 0) (numeric_tokens v)).
Proof.
  intros Hdec. unfold parse_id_list. apply int_comprehension_decimal.
  intros t Ht Hnum. apply Hdec. unfold numeric_tokens, tokens.
  apply filter_In. auto.
Qed.

Lemma parse_id_list_Return v ids :
  parse_id_list v = Return ids ->
  ids = map (PyStr.decimal_value 0) (numeric_tokens v).
Proof. apply int_comprehension_Return. Qed.

Lemma parse_id_list_no_numeric v :
  (forall t, In t (tokens v) -> PyStr.isnumeric t = false) ->
  parse_id_list v = Return [].
Proof.
  intros Hnone.
  assert (Hempty : numeric_tokens v = []).
  { unfold numeric_tokens. induction (tokens v) as [|t ts IH]; [reflexivity|].
    simpl. rewrite (Hnone t (or_introl eq_refl)). apply IH.
    intros t' Ht'. apply Hnone. now right. }
  rewrite parse_id_list_decimal; rewrite Hempty; [reflexivity|].
  intros t [].
Qed.

(** A numeric token that is not decimal stops the parser. *)
Lemma parse_id_list_superscript_two :
  PyStr.isnumeric superscript_two = true /\
  parse_id_list superscript_two = Raise (ValueError superscript_two).
Proof. split; reflexivity. Qed.

(** ** The handler monad *)

Lemma bind_Return {A B} (m : M A) (k : A -> M B) w a w' :
  m w = (Return a, w') -> bind m k w = k a w'.
Proof. unfold bind. now intros ->. Qed.

Lemma bind_Raise {A B} (m : M A) (k : A -> M B) w e w' :
  m w = (Raise e, w') -> bind m k w = (Raise e, w').
Proof. unfold bind. now intros ->. Qed.

Lemma bind_inv_Return {A B} (m : M A) (k : A -> M B) w b w' :
  bind m k w = (Return b, w') ->
  exists a w1, m w = (Return a, w1) /\ k a w1 = (Return b, w').
Proof.
  unfold bind. destruct (m w) as [[a|e] w1]; [eauto|discriminate].
Qed.

(** A loop of calls to a per-item hook is the hook's effect on the
    table, with one event per item reached. *)
Lemma for_each_call_Return {A} (ev : A -> Event) (h : A -> Effect unit) xs w d :
  each_effect h xs (db w) = (Return tt, d) ->
  for_each (fun x => call (ev x) (h x)) xs w
  = (Return tt, mkWorld d (trace w ++ map ev xs)).
Proof.
  revert w. induction xs as [|x xs IH]; intros [d0 tr]; simpl.
  - intros [= <-]. unfold ret. now rewrite app_nil_r.
  - destruct (h x d0) as [[[]|e] d1] eqn:Hx; [|discriminate].
    intros Hrest. unfold bind, call at 1. simpl. rewrite Hx.
    rewrite (IH (mkWorld d1 (tr ++ [ev x]))); [|exact Hrest].
    simpl. now rewrite <- app_assoc.
Qed.

Lemma for_each_call_inv {A} (ev : A -> Event) (h : A -> Effect unit) xs w w' :
  for_each (fun x => call (ev x) (h x)) xs w = (Return tt, w') ->
  each_effect h xs (db w) = (Return tt, db w') /\
  trace w' = trace w ++ map ev xs.
Proof.
  revert w. induction xs as [|x xs IH]; intros [d0 tr]; simpl.
  - unfold ret. intros [= <-]. simpl. now rewrite app_nil_r.
  - unfold bind, call at 1. simpl.
    destruct (h x d0) as [[[]|e] d1] eqn:Hx; [|discriminate].
    intros Hrest. apply IH in Hrest as [Heff Htr]. simpl in *.
    split; [exact Heff|]. now rewrite Htr, <- app_assoc.
Qed.

Lemma each_effect_neutral {A} (h : A -> Effect unit) xs d :
  neutral h -> each_effect h xs d = (Return tt, d).
Proof.
  intros Hn. induction xs as [|x xs IH]; simpl; [reflexivity|].
  now rewrite Hn.
Qed.

Lemma each_effect_delete fw objs d :
  deletes_by_pk fw ->
  (forall o, In o objs -> exists p, obj_pk o = Some p) ->
  each_effect (delete_object fw) objs d = (Return tt, remove_objs objs d).
Proof.
  intros Hdel. revert d. induction objs as [|o objs IH]; intros d Hpk; simpl.
  - reflexivity.
  - destruct (Hpk o (or_introl eq_refl)) as [p Hp].
    rewrite (Hdel o p d Hp). unfold remove_objs. simpl. rewrite Hp.
    apply IH. intros o' Ho'. apply Hpk. now right.
Qed.

(** ** Deleting rows by primary key *)

Lemma filter_twice {A} (f g : A -> bool) l :
  List.filter f (List.filter g l) = List.filter (fun x => g x && f x) l.
Proof.
  induction l as [|x l IH]; simpl; [reflexivity|].
  destruct (g x); simpl; [destruct (f x)|]; now rewrite IH.
Qed.

Lemma remove_objs_filter objs d :
  remove_objs objs d = List.filter (fun r => negb (deleted_by objs r)) d.
Proof.
  revert d. induction objs as [|o objs IH]; intros d.
  - unfold remove_objs, deleted_by. simpl.
    induction d as [|r d IHd]; simpl; [reflexivity|]. now rewrite <- IHd.
  - unfold remove_objs in *. simpl. destruct (obj_pk o) as [p|] eqn:Hp.
    + rewrite IH. unfold remove_pk. rewrite filter_twice.
      apply filter_ext. intros r. unfold deleted_by. simpl. rewrite Hp.
      now rewrite negb_orb.
    + rewrite IH. apply filter_ext. intros r. unfold deleted_by. simpl.
      now rewrite Hp.
Qed.

Lemma unique_pks_inj d a b :
  unique_pks d -> In a d -> In b d -> obj_pk a = obj_pk b -> a = b.
Proof.
  unfold unique_pks. induction d as [|r d IH]; simpl; [intros _ []|].
  intros Hnd Ha Hb Hpk. apply NoDup_cons in Hnd as [Hnotin Hnd].
  destruct Ha as [<-|Ha], Hb as [<-|Hb]; auto.
  - exfalso. apply Hnotin. rewrite Hpk. apply list_elem_of_In, in_map, Hb.
  - exfalso. apply Hnotin. rewrite <- Hpk. apply list_elem_of_In, in_map, Ha.
Qed.

Lemma deleted_by_In objs r :
  deleted_by objs r = true <->
  exists o p, In o objs /\ obj_pk o = Some p /\ obj_pk r = Some p.
Proof.
  unfold deleted_by. rewrite existsb_exists. split.
  - intros [k [Hk Hm]]. apply in_map_iff in Hk as [o [<- Ho]].
    destruct (obj_pk o) as [p|] eqn:Hp; [|discriminate].
    apply bool_decide_eq_true in Hm. eauto.
  - intros [o [p [Ho [Hp Hr]]]]. exists (Some p). split.
    + rewrite <- Hp. now apply in_map.
    + now apply bool_decide_eq_true.
Qed.

Lemma filter_pk_in_Some ids qs r :
  filter_pk_in ids qs r = true -> exists p, obj_pk r = Some p.
Proof.
  unfold filter_pk_in. intros H. apply andb_prop in H as [_ H].
  destruct (obj_pk r); [eauto|discriminate].
Qed.

(** Deleting the selected rows by primary key leaves the rows that were
    not selected, when primary keys identify rows. *)
Lemma remove_selected ids qs objs d :
  unique_pks d ->
  map obj_pk objs = map obj_pk (qs_eval (filter_pk_in ids qs) d) ->
  remove_objs objs d = List.filter (fun r => negb (filter_pk_in ids qs r)) d.
Proof.
  intros Huniq Hpks. rewrite remove_objs_filter.
  apply filter_ext_in. intros r Hr. f_equal.
  unfold deleted_by. rewrite Hpks. fold (deleted_by (qs_eval (filter_pk_in ids qs) d) r).
  destruct (filter_pk_in ids qs r) eqn:Hsel.
  - apply deleted_by_In. destruct (filter_pk_in_Some _ _ _ Hsel) as [p Hp].
    exists r, p. unfold qs_eval. rewrite filter_In. auto.
  - destruct (deleted_by _ r) eqn:Hdel; [|reflexivity].
    apply deleted_by_In in Hdel as [o [p [Ho [Hop Hrp]]]].
    unfold qs_eval in Ho. apply filter_In in Ho as [Ho Hsel'].
    assert (o = r) by (apply (unique_pks_inj d); congruence).
    congruence.
Qed.

(** ** [BulkDestroyModelMixin.destroy] *)

Section Destroy.

Variable fw : Framework.
Variable self : View.

(** The run of [destroy] on a parsed identifier list, under the
    contracts of the hooks, of [delete_object] and of the serializer
    ("serializer should be valid always"). *)
Lemma destroy_parsed request kwargs w v ids :
  delete_hooks_neutral self ->
  deletes_by_pk fw ->
  unique_pks (db w) ->
  query_get (QUERY_PARAMS request) "idList" = Some v ->
  parse_id_list v = Return ids ->
  let rows := qs_eval (destroy_queryset self ids) (db w) in
  is_valid fw (destroy_serializer self rows) = true ->
  map obj_pk (object fw (destroy_serializer self rows)) = map obj_pk rows ->
  exists w',
    destroy fw self request kwargs w
    = (Return (mkResponse None HTTP_204_NO_CONTENT), w') /\
    db w' = List.filter (fun r => negb (destroy_queryset self ids r)) (db w).
Proof.
  intros (Hpre & Hpreb & Hpostb & Hpost) Hdel Huniq Hget Hparse rows Hvalid Hobjs.
  unfold destroy. rewrite Hget.
  unfold bind at 1, lift. rewrite Hparse.
  unfold bind at 1, get_db.
  fold (destroy_queryset self ids). fold rows.
  unfold bind at 1, call_is_valid, observe. rewrite Hvalid.
  set (objs := object fw (destroy_serializer self rows)) in *.
  set (w1 := mkWorld _ _).
  assert (Hstored : forall o, In o objs -> exists p, obj_pk o = Some p).
  { intros o Ho. apply (in_map obj_pk) in Ho. rewrite Hobjs in Ho.
    apply in_map_iff in Ho as [r [Hr Hin]]. unfold rows, qs_eval in Hin.
    apply filter_In in Hin as [_ Hsel].
    destruct (filter_pk_in_Some _ _ _ Hsel) as [p Hp]. exists p. congruence. }
  erewrite bind_Return;
    [|apply for_each_call_Return, each_effect_neutral, Hpre].
  unfold bind at 1, call at 1. simpl db. rewrite Hpreb.
  erewrite bind_Return;
    [|apply for_each_call_Return; simpl db; apply each_effect_delete; assumption].
  unfold bind at 1, call at 1. simpl db. rewrite Hpostb.
  erewrite bind_Return;
    [|apply for_each_call_Return, each_effect_neutral, Hpost].
  eexists. split; [reflexivity|]. simpl.
  apply remove_selected; assumption.
Qed.

End Destroy.

(** Where the serializer built over the selected rows is valid and
    holds them, a destroy request with [idList=1,2,3] answers 204 and
    deletes exactly the rows of the filtered queryset whose primary key
    is 1, 2 or 3: the table afterwards is the table before without the
    selected rows, every other row is still there, in the same order.
    The hooks are neutral and [delete_object] deletes by primary key. *)
Theorem destroy_idList_1_2_3 (fw : Framework) (self : View)
    (request : Request) (kwargs : gmap string JSON) (w : World) :
  delete_hooks_neutral self ->
  deletes_by_pk fw ->
  unique_pks (db w) ->
  query_get (QUERY_PARAMS request) "idList" = Some "1,2,3" ->
  let rows := qs_eval (destroy_queryset self [1; 2; 3]) (db w) in
  is_valid fw (destroy_serializer self rows) = true ->
  map obj_pk (object fw (destroy_serializer self rows)) = map obj_pk rows ->
  exists w',
    destroy fw self request kwargs w
    = (Return (mkResponse None HTTP_204_NO_CONTENT), w') /\
    db w' = List.filter (fun r => negb (destroy_queryset self [1; 2; 3] r)) (db w) /\
    (forall r, In r (db w') <->
       In r (db w) /\
       ~ (filter_queryset self (get_queryset self) r = true /\
          (obj_pk r = Some 1%positive \/ obj_pk r = Some 2%positive \/
           obj_pk r = Some 3%positive))).
Proof.
  intros Hhooks Hdel Huniq Hget rows Hvalid Hobjs.
  destruct (destroy_parsed fw self request kwargs w "1,2,3" [1; 2; 3])
    as [w' [Hrun Hdb]]; auto.
  exists w'. split; [exact Hrun|]. split; [exact Hdb|].
  intros r. rewrite Hdb, filter_In. apply and_iff_compat_l.
  rewrite negb_true_iff, <- not_true_iff_false.
  apply not_iff_compat. unfold destroy_queryset, filter_pk_in.
  rewrite andb_true_iff. apply and_iff_compat_l.
  destruct (obj_pk r) as [p|]; unfold mem_Z; cbn [existsb].
  - rewrite !orb_true_iff, !Z.eqb_eq. split.
    + intros [H|[H|[H|H]]]; try discriminate; inversion H; auto.
    + intros [[= ->]|[[= ->]|[= ->]]]; auto.
  - split; [discriminate|]. intros [H|[H|H]]; discriminate.
Qed.

(** C1, at a failing input.  On a view over a model whose primary key
    field is named [code], [destroy] with [idList=1,2,3] selects rows
    1, 2 and 3 and hands the serializer the data [{code: 1}, {code: 2},
    {code: 3}]; the serializer reads identities from [id], finds none,
    and is not valid, against the note on line 189.  The request
    answers 400 with the serializer's errors and deletes nothing. *)
Theorem destroy_idList_1_2_3_key_not_id :
  let request := Reference.request_with JNull [("idList", ["1,2,3"])] in
  let rows := [Reference.row 1 "a"; Reference.row 2 "b"; Reference.row 3 "c"] in
  let s := destroy_serializer Views.code_view rows in
  qs_eval (destroy_queryset Views.code_view [1; 2; 3]) Reference.table = rows /\
  ser_init_data s
  = JList [JDict [("code", JNum 1)]; JDict [("code", JNum 2)];
           JDict [("code", JNum 3)]] /\
  is_valid Reference.framework s = false /\
  destroy Reference.framework Views.code_view request ∅ Reference.world
  = (Return (mkResponse (Some (errors Reference.framework s)) HTTP_400_BAD_REQUEST),
     mkWorld Reference.table [EvIsValid s false]).
Proof. repeat split. Qed.

(** C2.  A destroy request without [idList] answers 400 with no body
    and leaves the world as it was: nothing is deleted and nothing is
    called. *)
Theorem destroy_without_idList (fw : Framework) (self : View)
    (request : Request) (kwargs : gmap string JSON) (w : World) :
  query_get (QUERY_PARAMS request) "idList" = None ->
  destroy fw self request kwargs w
  = (Return (mkResponse None HTTP_400_BAD_REQUEST), w).
Proof. intros Hget. unfold destroy. now rewrite Hget. Qed.

(** C10.  A destroy request whose [idList] is present but holds no
    numeric token answers 204, not 400, and deletes nothing: the parsed
    list is empty and the [pk__in] filter selects no row.  The two batch
    hooks are neutral and the serializer over no rows is valid and
    holds none. *)
Theorem destroy_no_numeric_token (fw : Framework) (self : View)
    (request : Request) (kwargs : gmap string JSON) (w : World) (v : string) :
  neutral (pre_bulk_delete self) ->
  neutral (post_bulk_delete self) ->
  query_get (QUERY_PARAMS request) "idList" = Some v ->
  (forall t, In t (tokens v) -> PyStr.isnumeric t = false) ->
  is_valid fw (destroy_serializer self []) = true ->
  object fw (destroy_serializer self []) = [] ->
  exists w',
    destroy fw self request kwargs w
    = (Return (mkResponse None HTTP_204_NO_CONTENT), w') /\
    db w' = db w.
Proof.
  intros Hpreb Hpostb Hget Hnone Hvalid Hobjs.
  unfold destroy. rewrite Hget.
  unfold bind at 1, lift. rewrite (parse_id_list_no_numeric v Hnone).
  unfold bind at 1, get_db.
  assert (Hrows : qs_eval (filter_pk_in [] (filter_queryset self (get_queryset self))) (db w) = []).
  { unfold qs_eval. induction (db w) as [|r d IH]; simpl; [reflexivity|].
    unfold filter_pk_in at 1. simpl.
    destruct (obj_pk r); rewrite andb_false_r; exact IH. }
  rewrite Hrows.
  unfold bind at 1, call_is_valid, observe. rewrite Hvalid, Hobjs. simpl.
  unfold bind, call, ret. simpl. rewrite Hpreb, Hpostb.
  eexists. split; reflexivity.
Qed.

(** C8, at the failing input.  For [idList] equal to the one-character
    value U+00B2 the token passes [isnumeric], [int] raises on it, and
    [destroy] ends in that [ValueError]: the token is neither dropped nor
    converted. *)
Theorem destroy_superscript_two_raises (fw : Framework) (self : View)
    (kwargs : gmap string JSON) (w : World) :
  numeric_tokens superscript_two = [superscript_two] /\
  destroy fw self (mkRequest JNull {[ "idList" := [superscript_two] ]}) kwargs w
  = (Raise (ValueError superscript_two), w).
Proof. split; reflexivity. Qed.

(** ** What a handler adds to the trace *)

Lemma appends_ret {A} P (a : A) : appends P (ret a).
Proof. intros w. exists []. simpl. now rewrite app_nil_r. Qed.

Lemma appends_lift {A} P (r : Outcome A) : appends P (lift r).
Proof. intros w. exists []. simpl. now rewrite app_nil_r. Qed.

Lemma appends_call {A} (P : Event -> Prop) ev (f : Effect A) :
  P ev -> appends P (call ev f).
Proof.
  intros Hev w. exists [ev]. unfold call.
  destruct (f (db w)) as [r d]. simpl. auto.
Qed.

Lemma appends_bind {A B} P (m : M A) (k : A -> M B) :
  appends P m -> (forall a, appends P (k a)) -> appends P (bind m k).
Proof.
  intros Hm Hk w. unfold bind. destruct (Hm w) as [evs [Htr Hall]].
  destruct (m w) as [[a|e] w1]; simpl in *.
  - destruct (Hk a w1) as [evs' [Htr' Hall']].
    exists (evs ++ evs'). rewrite Htr', Htr, <- app_assoc.
    split; [reflexivity|]. apply Forall_app; auto.
  - eauto.
Qed.

Lemma appends_for_each {A} P (body : A -> M unit) xs :
  (forall x, appends P (body x)) -> appends P (for_each body xs).
Proof.
  intros Hbody. induction xs as [|x xs IH]; simpl.
  - apply appends_ret.
  - apply appends_bind; auto.
Qed.

Ltac appends_calls :=
  repeat first
    [ apply appends_ret
    | apply appends_bind; [|intros ?]
    | apply appends_for_each; intros ?
    | apply appends_call; simpl; auto ].

(** ** [BulkCreateModelMixin.create] *)

Section Create.

Variable fw : Framework.
Variable self : View.

Lemma bulk_path_condition request kwargs :
  bulk_path self request kwargs = true ->
  negb (is_list (DATA request))
  && negb (truthy (default (JBool (post_force_bulk self)) (kwargs !! "post_force_bulk")))
  = false.
Proof.
  unfold bulk_path, effective_force_bulk. rewrite <- negb_orb.
  intros ->. reflexivity.
Qed.

Lemma lookup_allow_update (kwargs : gmap string JSON) :
  delete "post_force_bulk" kwargs !! "post_allow_update" = kwargs !! "post_allow_update".
Proof. now apply lookup_delete_ne. Qed.

(** The bulk path from the point where the serializer [s] is chosen:
    validation is the first call, a failed validation is the last one,
    and a [save], if any, is the one on [s] with [force_insert] set
    unless updates are allowed. *)
Lemma create_bulk_run request kwargs w s :
  bulk_path self request kwargs = true ->
  (truthy (effective_allow_update self kwargs) = false /\
   s = get_serializer None (DATA request) true false false
   \/
   truthy (effective_allow_update self kwargs) = true /\
   exists items, py_iter (DATA request) = Return items /\
     s = get_serializer (Some (update_target fw self items (db w)))
                        (DATA request) true false true) ->
  let kw := mkSave (negb (truthy (effective_allow_update self kwargs))) false in
  (exists evs,
     trace (snd (create fw self request kwargs w))
     = trace w ++ EvIsValid s (is_valid fw s) :: evs /\
     Forall (save_with s kw) evs) /\
  (is_valid fw s = false ->
   create fw self request kwargs w
   = (Return (mkResponse (Some (errors fw s)) HTTP_400_BAD_REQUEST),
      mkWorld (db w) (trace w ++ [EvIsValid s false]))).
Proof.
  intros Hbulk Hser kw. unfold create.
  rewrite (bulk_path_condition _ _ Hbulk), lookup_allow_update.
  fold (effective_allow_update self kwargs) in *.
  set (tail := fun serializer : Serializer => bind (call_is_valid fw serializer) _).
  assert (Hchoose :
    bind (if truthy (effective_allow_update self kwargs)
          then bind (lift (py_iter (DATA request)))
                 (fun items =>
                    bind get_db (fun d =>
                      ret (get_serializer
                             (Some (qs_eval (filter_pk_in_values fw (collect_ids fw items)
                                      (filter_queryset self (get_queryset self))) d))
                             (DATA request) true false true)))
          else ret (get_serializer None (DATA request) true false false)) tail w
    = tail s w).
  { destruct Hser as [[Hno ->]|[Hyes [items [Hiter ->]]]].
    - rewrite Hno. reflexivity.
    - rewrite Hyes. unfold bind at 1 2, lift. rewrite Hiter. reflexivity. }
  rewrite Hchoose. unfold tail, bind at 1, call_is_valid, observe.
  split.
  - destruct (is_valid fw s).
    + match goal with |- context [snd (?m ?w1)] =>
        assert (Happ : appends (save_with s kw) m) end.
      { appends_calls. }
      match goal with |- context [snd (?m ?w1)] =>
        destruct (Happ w1) as [evs [Htr Hall]] end.
      exists evs. rewrite Htr. simpl. rewrite <- app_assoc. auto.
    + exists []. simpl. auto.
  - intros ->. reflexivity.
Qed.

End Create.

Lemma mem_Z_In z l : mem_Z z l = true <-> In z l.
Proof.
  unfold mem_Z. rewrite existsb_exists. split.
  - intros [y [Hy Heq]]. apply Z.eqb_eq in Heq. now subst.
  - intros Hz. exists z. split; [exact Hz|apply Z.eqb_refl].
Qed.

(** The collected identifiers are the true identities of the items. *)
Lemma collect_ids_In fw items v :
  In v (collect_ids fw items) <->
  truthy v = true /\ exists item, In item items /\ get_identity fw item = v.
Proof.
  induction items as [|item items IH]; simpl.
  - split; [intros []|intros [_ [? [[] _]]]].
  - destruct (truthy (get_identity fw item)) eqn:Htrue; simpl; rewrite IH; split.
    + intros [Heq|[Hv [it [Hin Hit]]]]; [subst v|]; eauto.
    + intros [Hv [it [[Heq|Hin] Hit]]]; [subst it; auto|eauto].
    + intros [Hv [it [Hin Hit]]]. eauto.
    + intros [Hv [it [[Heq|Hin] Hit]]]; [|eauto].
      subst it. congruence.
Qed.


(** With [post_allow_update] on, the bulk path rebuilds the serializer
    over exactly the rows of the filtered queryset whose primary key
    the mapper's [pk__in] finds among the true identities of the
    payload items, with [allow_add_remove=True] and [partial=False];
    that serializer is the one validated, and every [save] call is the
    one on it with neither [force_insert] nor [force_update].  Which
    items then update a row and which are inserted is the serializer's
    matching of identities, not the mapper's. *)
Lemma create_allow_update_target (fw : Framework) (self : View)
    (request : Request) (kwargs : gmap string JSON) (w : World)
    (items : list JSON) :
  bulk_path self request kwargs = true ->
  truthy (effective_allow_update self kwargs) = true ->
  py_iter (DATA request) = Return items ->
  let target := update_target fw self items (db w) in
  let s := get_serializer (Some target) (DATA request) true false true in
  (forall o, In o target <->
     In o (db w) /\ filter_queryset self (get_queryset self) o = true /\
     exists item p, In item items /\ truthy (get_identity fw item) = true /\
                    obj_pk o = Some p /\
                    pk_lookup fw (get_identity fw item) p = true) /\
  exists evs,
    trace (snd (create fw self request kwargs w))
    = trace w ++ EvIsValid s (is_valid fw s) :: evs /\
    Forall (save_with s (mkSave false false)) evs.
Proof.
  intros Hbulk Hallow Hiter target s. split.
  - intros o. unfold target, update_target, qs_eval.
    rewrite filter_In. apply and_iff_compat_l.
    unfold filter_pk_in_values. rewrite andb_true_iff. apply and_iff_compat_l.
    destruct (obj_pk o) as [p|].
    + rewrite existsb_exists. split.
      * intros [v [Hin Hlook]]. apply collect_ids_In in Hin as [Hv [item [Hin Hid]]].
        subst v. exists item, p. auto.
      * intros [item [p' [Hin [Hv [Hpk Hlook]]]]]. injection Hpk as Hpk. subst p'.
        exists (get_identity fw item). split; [|exact Hlook].
        apply collect_ids_In. eauto.
    + split; [discriminate|]. intros [item [p [_ [_ [H _]]]]]. discriminate.
  - destruct (create_bulk_run fw self request kwargs w s Hbulk) as [Hrun _].
    + right. split; [exact Hallow|]. exists items. split; [exact Hiter|reflexivity].
    + rewrite Hallow in Hrun. exact Hrun.
Qed.

(** C4, at a failing input.  A bulk POST with updates allowed whose one
    item carries the identity of row 2 as the string ["2"]: the mapper's
    [pk__in] coerces the string, so row 2 is the update target; the
    serializer matches identities without coercion, so the item is not
    row 2's and is restored as a new object.  The request answers 201,
    the item is inserted as row 6, and [serializer.save], called with
    [allow_add_remove=True], deletes row 2, the instance no item
    claimed: the row is replaced, not updated. *)
Theorem create_string_identity_replaces_row :
  let items := [JDict [("id", JStr "2"); ("name", JStr "y")]] in
  let run := create Reference.framework Reference.view
               (Reference.request_with (JList items) [])
               {[ "post_allow_update" := JBool true ]} Reference.world in
  update_target Reference.framework Reference.view items Reference.table
  = [Reference.row 2 "b"] /\
  (exists resp, fst run = Return resp /\ resp_status resp = HTTP_201_CREATED) /\
  db (snd run)
  = [Reference.row 1 "a"; Reference.row 3 "c"; Reference.row 4 "d";
     Reference.row 5 "e"; Reference.row 6 "y"].
Proof.
  split; [reflexivity|]. split; [|reflexivity].
  eexists. split; reflexivity.
Qed.

(** C5.  On a payload that is not a list, with [post_force_bulk] false,
    [create] is the superclass's single-object [create], called with
    the keyword arguments left after the two settings are popped. *)
Theorem create_single_delegates (fw : Framework) (self : View)
    (request : Request) (kwargs : gmap string JSON) :
  is_list (DATA request) = false ->
  truthy (effective_force_bulk self kwargs) = false ->
  create fw self request kwargs
  = CreateModelMixin_create fw self request
      (delete "post_allow_update" (delete "post_force_bulk" kwargs)).
Proof.
  intros Hlist Hforce. unfold create.
  fold (effective_force_bulk self kwargs). now rewrite Hlist, Hforce.
Qed.

Lemma call_inv {A} ev (f : Effect A) w r w' :
  call ev f w = (r, w') ->
  trace w' = trace w ++ [ev] /\ f (db w) = (r, db w').
Proof.
  unfold call. destruct (f (db w)) as [r0 d]. intros [= <- <-]. auto.
Qed.




(** ** [BulkUpdateModelMixin] *)

Lemma for_each_call_Raise {A} (ev : A -> Event) (h : A -> Effect unit)
    before x after w d1 e d2 :
  each_effect h before (db w) = (Return tt, d1) ->
  h x d1 = (Raise e, d2) ->
  for_each (fun y => call (ev y) (h y)) (before ++ x :: after) w
  = (Raise e, mkWorld d2 (trace w ++ map ev before ++ [ev x])).
Proof.
  revert w. induction before as [|b before IH]; intros [d0 tr]; simpl.
  - intros [= <-] Hx. unfold bind, call at 1. simpl. now rewrite Hx.
  - destruct (h b d0) as [[[]|e0] d] eqn:Hb; [|discriminate].
    intros Hrest Hx. unfold bind, call at 1. simpl. rewrite Hb.
    rewrite (IH (mkWorld d (tr ++ [ev b])) Hrest Hx). simpl.
    now rewrite <- app_assoc.
Qed.

(** In a bulk update that passed validation, when [pre_save]
    raises a validation error carrying the mapping [md] for an item,
    having returned on the items before it, the handler answers 400 with
    [md]; the calls made are the validation and the [pre_save] calls up
    to that item, so [serializer.save] is not among them. *)
Theorem bulk_update_pre_save_ValidationError (fw : Framework) (self : View)
    (request : Request) (kwargs : gmap string JSON) (w : World)
    (before after : list Obj) (o : Obj) (md : JSON) (d1 d2 : DB) :
  let s := update_serializer self request kwargs (db w) in
  is_valid fw s = true ->
  object fw s = before ++ o :: after ->
  each_effect (pre_save self) before (db w) = (Return tt, d1) ->
  pre_save self o d1 = (Raise (ValidationError (Some md)), d2) ->
  let calls := EvIsValid s true :: map EvPreSave before ++ [EvPreSave o] in
  bulk_update fw self request kwargs w
  = (Return (mkResponse (Some md) HTTP_400_BAD_REQUEST),
     mkWorld d2 (trace w ++ calls)) /\
  existsb is_save calls = false.
Proof.
  intros s Hvalid Hobjs Hbefore Hraise calls. split.
  - unfold bulk_update. unfold bind at 1, get_db.
    fold (update_serializer self request kwargs (db w)). fold s.
    unfold bind at 1, call_is_valid, observe. rewrite Hvalid, Hobjs.
    unfold bind at 1, try_except_ValidationError.
    unfold bind at 1.
    rewrite (for_each_call_Raise EvPreSave (pre_save self) before o after
               (mkWorld (db w) (trace w ++ [EvIsValid s true])) d1
               (ValidationError (Some md)) d2 Hbefore Hraise).
    unfold ret, calls. simpl. now rewrite <- app_assoc.
  - unfold calls. simpl. rewrite existsb_app. simpl. rewrite orb_false_r.
    clear. induction before as [|b before IH]; simpl; auto.
Qed.

(** C6, at the failing case.  The [except] clause of line 132 catches
    every validation error of [pre_save], also one built from a message
    or a list, which carries no field/message mapping; reading
    [err.message_dict] on line 135 is then an [AttributeError] raised
    inside the handler.  The bulk update ends in that exception instead
    of answering 400; the calls made are the validation and the
    [pre_save] calls up to that item. *)
Theorem bulk_update_pre_save_ValidationError_without_mapping
    (fw : Framework) (self : View)
    (request : Request) (kwargs : gmap string JSON) (w : World)
    (before after : list Obj) (o : Obj) (d1 d2 : DB) :
  let s := update_serializer self request kwargs (db w) in
  is_valid fw s = true ->
  object fw s = before ++ o :: after ->
  each_effect (pre_save self) before (db w) = (Return tt, d1) ->
  pre_save self o d1 = (Raise (ValidationError None), d2) ->
  bulk_update fw self request kwargs w
  = (Raise (AttributeError "message_dict"),
     mkWorld d2 (trace w ++ EvIsValid s true :: map EvPreSave before
                 ++ [EvPreSave o])).
Proof.
  intros s Hvalid Hobjs Hbefore Hraise.
  unfold bulk_update. unfold bind at 1, get_db.
  fold (update_serializer self request kwargs (db w)). fold s.
  unfold bind at 1, call_is_valid, observe. rewrite Hvalid, Hobjs.
  unfold bind at 1, try_except_ValidationError.
  unfold bind at 1.
  rewrite (for_each_call_Raise EvPreSave (pre_save self) before o after
             (mkWorld (db w) (trace w ++ [EvIsValid s true])) d1
             (ValidationError None) d2 Hbefore Hraise).
  simpl. now rewrite <- app_assoc.
Qed.

(** C9.  [get_object] answers [None] when neither the lookup key
    ([lookup_url_kwarg], or [lookup_field] when that is unset) nor
    [pk_url_kwarg] nor [slug_url_kwarg] is a key of the view's kwargs,
    and otherwise is the superclass's [get_object]. *)
Theorem get_object_without_lookup (fw : Framework) (self : View)
    (queryset : option QuerySet) :
  (view_kwargs self !! lookup_key self = None /\
   view_kwargs self !! pk_url_kwarg self = None /\
   view_kwargs self !! slug_url_kwarg self = None ->
   get_object fw self queryset = ret None) /\
  (is_Some (view_kwargs self !! lookup_key self) \/
   is_Some (view_kwargs self !! pk_url_kwarg self) \/
   is_Some (view_kwargs self !! slug_url_kwarg self) ->
   get_object fw self queryset
   = bind (call EvSuperGetObject (super_get_object fw self queryset))
          (fun o => ret (Some o))).
Proof.
  unfold get_object. fold (lookup_key self). unfold has_key. split.
  - intros (-> & -> & ->). reflexivity.
  - intros Hsome.
    assert (Hany : bool_decide (is_Some (view_kwargs self !! lookup_key self))
                   || bool_decide (is_Some (view_kwargs self !! pk_url_kwarg self))
                   || bool_decide (is_Some (view_kwargs self !! slug_url_kwarg self))
                   = true).
    { rewrite !orb_true_iff, !bool_decide_eq_true. tauto. }
    now rewrite Hany.
Qed.

(** ** The statements at the reference host *)

Lemma reference_delete_hooks_neutral : delete_hooks_neutral Reference.view.
Proof. repeat split. Qed.

Lemma reference_deletes_by_pk : deletes_by_pk Reference.framework.
Proof.
  intros o p d Hp. simpl. unfold Reference.delete_object. now rewrite Hp.
Qed.

Lemma reference_unique_pks : unique_pks Reference.table.
Proof. apply (bool_decide_unpack _). reflexivity. Qed.

Lemma destroy_idList_1_2_3_witness :
  let request := Reference.request_with JNull [("idList", ["1,2,3"])] in
  query_get (QUERY_PARAMS request) "idList" = Some "1,2,3" /\
  exists w',
    destroy Reference.framework Reference.view request ∅ Reference.world
    = (Return (mkResponse None HTTP_204_NO_CONTENT), w') /\
    db w' = [Reference.row 4 "d"; Reference.row 5 "e"].
Proof.
  intros request. split; [reflexivity|].
  destruct (destroy_idList_1_2_3 Reference.framework Reference.view request ∅
              Reference.world reference_delete_hooks_neutral
              reference_deletes_by_pk reference_unique_pks
              eq_refl eq_refl eq_refl) as [w' [Hrun [Hdb _]]].
  exists w'. split; [exact Hrun|]. rewrite Hdb. reflexivity.
Defined.

Lemma destroy_without_idList_witness :
  let request := Reference.request_with JNull [("ids", ["1,2,3"])] in
  query_get (QUERY_PARAMS request) "idList" = None /\
  destroy Reference.framework Reference.view request ∅ Reference.world
  = (Return (mkResponse None HTTP_400_BAD_REQUEST), Reference.world).
Proof.
  intros request. split; [reflexivity|].
  apply (destroy_without_idList Reference.framework Reference.view request ∅
           Reference.world). reflexivity.
Defined.

Lemma destroy_no_numeric_token_witness :
  let request := Reference.request_with JNull [("idList", ["a, b1 ,,-3"])] in
  tokens "a, b1 ,,-3" = ["a"; "b1"; "-3"] /\
  exists w',
    destroy Reference.framework Reference.view request ∅ Reference.world
    = (Return (mkResponse None HTTP_204_NO_CONTENT), w') /\
    db w' = Reference.table.
Proof.
  intros request. split; [reflexivity|].
  apply (destroy_no_numeric_token Reference.framework Reference.view request ∅
           Reference.world "a, b1 ,,-3").
  - intros a d. reflexivity.
  - intros a d. reflexivity.
  - reflexivity.
  - intros t [<-|[<-|[<-|[]]]]; reflexivity.
  - reflexivity.
  - reflexivity.
Defined.


Lemma create_allow_update_target_witness :
  let items := [JDict [("id", JNum 2); ("name", JStr "y")]; JDict [("name", JStr "x")]] in
  let request := Reference.request_with (JList items) [] in
  let kwargs : gmap string JSON := {[ "post_allow_update" := JBool true ]} in
  update_target Reference.framework Reference.view items Reference.table
  = [Reference.row 2 "b"] /\
  exists evs,
    trace (snd (create Reference.framework Reference.view request kwargs Reference.world))
    = EvIsValid (get_serializer (Some [Reference.row 2 "b"]) (JList items) true false true)
                true :: evs /\
    Forall (save_with (get_serializer (Some [Reference.row 2 "b"]) (JList items) true false true)
                      (mkSave false false)) evs.
Proof.
  intros items request kwargs. split; [reflexivity|].
  destruct (create_allow_update_target Reference.framework Reference.view
              request kwargs Reference.world items eq_refl eq_refl eq_refl)
    as [_ Hrun].
  exact Hrun.
Defined.

Lemma create_single_delegates_witness :
  let request := Reference.request_with (JDict [("name", JStr "x")]) [] in
  is_list (DATA request) = false /\
  create Reference.framework Reference.view request ∅
  = CreateModelMixin_create Reference.framework Reference.view request
      (delete "post_allow_update" (delete "post_force_bulk" ∅)).
Proof.
  intros request. split; [reflexivity|].
  apply (create_single_delegates Reference.framework Reference.view request ∅);
    reflexivity.
Defined.


Lemma bulk_update_pre_save_ValidationError_witness :
  let request :=
    Reference.request_with
      (JList [JDict [("id", JNum 1); ("name", JStr "z")];
              JDict [("id", JNum 2); ("name", JStr "")];
              JDict [("id", JNum 3); ("name", JStr "q")]]) [] in
  let s := update_serializer Reference.cleaning_view request ∅ Reference.table in
  is_valid Reference.framework s = true /\
  object Reference.framework s
  = [Reference.row 1 "z"] ++ Reference.row 2 "" :: [Reference.row 3 "q"] /\
  bulk_update Reference.framework Reference.cleaning_view request ∅ Reference.world
  = (Return (mkResponse (Some Reference.blank_name) HTTP_400_BAD_REQUEST),
     mkWorld Reference.table
       [EvIsValid s true; EvPreSave (Reference.row 1 "z");
        EvPreSave (Reference.row 2 "")]).
Proof.
  intros request s.
  assert (Hvalid : is_valid Reference.framework s = true) by reflexivity.
  assert (Hobjs : object Reference.framework s
                  = [Reference.row 1 "z"] ++ Reference.row 2 "" :: [Reference.row 3 "q"])
    by reflexivity.
  split; [exact Hvalid|]. split; [exact Hobjs|].
  destruct (bulk_update_pre_save_ValidationError Reference.framework
              Reference.cleaning_view request ∅ Reference.world
              [Reference.row 1 "z"] [Reference.row 3 "q"] (Reference.row 2 "")
              Reference.blank_name Reference.table Reference.table
              Hvalid Hobjs eq_refl eq_refl) as [Hrun _].
  exact Hrun.
Defined.

Lemma get_object_without_lookup_witness :
  get_object Reference.framework Reference.view None = ret None /\
  get_object Reference.framework Reference.detail_view None Reference.world
  = (Return (Some (Reference.row 3 "c")),
     mkWorld Reference.table [EvSuperGetObject]).
Proof.
  split.
  - apply (get_object_without_lookup Reference.framework Reference.view None).
    repeat split.
  - destruct (get_object_without_lookup Reference.framework Reference.detail_view None)
      as [_ Hsuper].
    rewrite Hsuper; [reflexivity|].
    right. left. exists "3". reflexivity.
Defined.

(** The reference host on a bulk POST with updates allowed: the item
    that carries the identity of row 2 updates that row, the item
    without identity is inserted under a new key, and no key is
    duplicated. *)
Example reference_upsert :
  let items := [JDict [("id", JNum 2); ("name", JStr "y")]; JDict [("name", JStr "x")]] in
  let run := create Reference.framework Reference.view
               (Reference.request_with (JList items) [])
               {[ "post_allow_update" := JBool true ]} Reference.world in
  db (snd run)
  = [Reference.row 1 "a"; Reference.row 2 "y"; Reference.row 3 "c";
     Reference.row 4 "d"; Reference.row 5 "e"; Reference.row 6 "x"].
Proof. reflexivity. Qed.

(** * Further properties of the handlers *)

(** ** The [idList] parser *)

Lemma decimal_value_nonneg s acc :
  0 <= acc -> PyStr.all_chars PyStr.isdecimal_char s = true ->
  0 <= PyStr.decimal_value acc s.
Proof.
  revert acc. induction s as [|c s IH]; intros acc Hacc Hall; simpl in *.
  - exact Hacc.
  - apply andb_prop in Hall as [Hc Hs]. apply IH; [|exact Hs].
    unfold PyStr.isdecimal_char in Hc. apply andb_prop in Hc as [Hlo _].
    apply N.leb_le in Hlo. unfold PyStr.digit_value. lia.
Qed.

Lemma int_comprehension_nonneg xs ids :
  int_comprehension xs = Return ids -> Forall (fun z => 0 <= z) ids.
Proof.
  revert ids. induction xs as [|x xs IH]; intros ids; simpl.
  - intros [= <-]. constructor.
  - destruct (PyStr.isnumeric x); [|apply IH].
    unfold PyStr.int. destruct (PyStr.isdecimal x) eqn:Hdec; [|discriminate].
    destruct (int_comprehension xs) as [zs|e]; [|discriminate].
    intros [= <-]. constructor; [|now apply IH].
    unfold PyStr.isdecimal in Hdec. apply andb_prop in Hdec as [_ Hall].
    apply decimal_value_nonneg; [lia|exact Hall].
Qed.

(** X1.  Every identifier [destroy] reads from [idList] is a
    non-negative integer: a token with a sign is not numeric and is
    dropped, so no negative key is ever selected. *)
Theorem parse_id_list_nonnegative (v : string) (ids : list Z) :
  parse_id_list v = Return ids -> Forall (fun z => 0 <= z) ids.
Proof.
  unfold parse_id_list. intros Hparse.
  exact (int_comprehension_nonneg _ _ Hparse).
Qed.

Lemma parse_id_list_nonnegative_witness :
  parse_id_list "-3, 4,+5,06" = Return [4; 6] /\
  Forall (fun z => 0 <= z) [4; 6].
Proof.
  split; [reflexivity|].
  apply (parse_id_list_nonnegative "-3, 4,+5,06"). reflexivity.
Defined.

Lemma split_app_sep sep a b :
  PyStr.split sep (a ++ String sep b)%string
  = PyStr.split sep a ++ PyStr.split sep b.
Proof.
  induction a as [|c a IH]; simpl.
  - now rewrite Ascii.eqb_refl.
  - destruct (Ascii.eqb c sep); rewrite IH; [reflexivity|].
    destruct (PyStr.split sep a) as [|t ts] eqn:Hsplit; [|reflexivity].
    now apply split_not_nil in Hsplit.
Qed.

Lemma int_comprehension_app xs ys :
  int_comprehension (xs ++ ys)
  = match int_comprehension xs with
    | Return zs => match int_comprehension ys with
                   | Return zs' => Return (zs ++ zs')
                   | Raise e => Raise e
                   end
    | Raise e => Raise e
    end.
Proof.
  induction xs as [|x xs IH]; simpl.
  - now destruct (int_comprehension ys).
  - destruct (PyStr.isnumeric x); [|exact IH].
    destruct (PyStr.int x); [|reflexivity]. rewrite IH.
    destruct (int_comprehension xs); [|reflexivity].
    now destruct (int_comprehension ys).
Qed.

Lemma tokens_comma a b :
  tokens (a ++ String PyStr.comma b)%string = tokens a ++ tokens b.
Proof.
  unfold tokens. now rewrite split_app_sep, map_app, List.filter_app.
Qed.

(** X2.  Joining two [idList] values with a comma concatenates what
    they parse to: the parser works piece by piece, and a piece never
    changes the reading of another. *)
Theorem parse_id_list_comma (a b : string) (ids_a ids_b : list Z) :
  parse_id_list a = Return ids_a ->
  parse_id_list b = Return ids_b ->
  parse_id_list (a ++ String PyStr.comma b)%string = Return (ids_a ++ ids_b).
Proof.
  unfold parse_id_list. fold (tokens a) (tokens b) (tokens (a ++ String PyStr.comma b)%string).
  intros Ha Hb. now rewrite tokens_comma, int_comprehension_app, Ha, Hb.
Qed.

Lemma parse_id_list_comma_witness :
  parse_id_list "1, x ,2" = Return [1; 2] /\
  parse_id_list " 3,," = Return [3] /\
  parse_id_list "1, x ,2, 3,," = Return [1; 2; 3].
Proof.
  split; [reflexivity|]. split; [reflexivity|].
  apply (parse_id_list_comma "1, x ,2" " 3,," [1; 2] [3]); reflexivity.
Defined.

Lemma int_comprehension_first_raise xs t :
  In t xs -> PyStr.isnumeric t = true -> PyStr.isdecimal t = false ->
  exists before t' after,
    xs = before ++ t' :: after /\
    PyStr.isnumeric t' = true /\ PyStr.isdecimal t' = false /\
    (forall u, In u before -> PyStr.isnumeric u = true -> PyStr.isdecimal u = true) /\
    int_comprehension xs = Raise (ValueError t').
Proof.
  induction xs as [|x xs IH]; simpl; [intros []|].
  intros Hin Hnum Hdec.
  destruct (PyStr.isnumeric x) eqn:Hx.
  - unfold PyStr.int. destruct (PyStr.isdecimal x) eqn:Hxd.
    + destruct Hin as [Heq|Hin]; [subst x; congruence|].
      destruct (IH Hin Hnum Hdec)
        as [before [t' [after [Hxs [Hn' [Hd' [Hbefore Hraise]]]]]]].
      exists (x :: before), t', after. rewrite Hraise, Hxs.
      split; [reflexivity|]. split; [exact Hn'|]. split; [exact Hd'|].
      split; [|reflexivity].
      intros u [Hu|Hu] Hun; [subst u; exact Hxd|auto].
    + exists [], x, xs.
      split; [reflexivity|]. split; [exact Hx|]. split; [exact Hxd|].
      split; [|reflexivity]. intros u [].
  - destruct Hin as [Heq|Hin]; [subst x; congruence|].
    destruct (IH Hin Hnum Hdec)
      as [before [t' [after [Hxs [Hn' [Hd' [Hbefore Hraise]]]]]]].
    exists (x :: before), t', after. rewrite Hxs.
    split; [reflexivity|]. split; [exact Hn'|]. split; [exact Hd'|].
    split; [|rewrite <- Hxs; exact Hraise].
    intros u [Hu|Hu] Hun; [subst u; congruence|auto].
Qed.

(** ** More on [destroy] *)

(** X3.  When some token of [idList] passes [isnumeric] without being a
    run of decimal digits, [destroy] raises the [ValueError] of [int] on
    the first such token (every numeric token before it is a run of
    decimal digits), before it reads the table or calls anything: the
    world is as it was. *)
Theorem destroy_raises_on_numeric_not_decimal (fw : Framework) (self : View)
    (request : Request) (kwargs : gmap string JSON) (w : World)
    (v t : string) :
  query_get (QUERY_PARAMS request) "idList" = Some v ->
  In t (numeric_tokens v) ->
  PyStr.isdecimal t = false ->
  exists before t' after,
    tokens v = before ++ t' :: after /\
    PyStr.isnumeric t' = true /\ PyStr.isdecimal t' = false /\
    (forall u, In u before -> PyStr.isnumeric u = true -> PyStr.isdecimal u = true) /\
    destroy fw self request kwargs w = (Raise (ValueError t'), w).
Proof.
  intros Hget Hin Hdec.
  unfold numeric_tokens in Hin. apply filter_In in Hin as [Hin Hnum].
  destruct (int_comprehension_first_raise (tokens v) t Hin Hnum Hdec)
    as [before [t' [after [Htok [Hn' [Hd' [Hbefore Hraise]]]]]]].
  exists before, t', after.
  split; [exact Htok|]. split; [exact Hn'|]. split; [exact Hd'|].
  split; [exact Hbefore|].
  unfold destroy. rewrite Hget. unfold bind, lift, parse_id_list.
  fold (tokens v). now rewrite Hraise.
Qed.

Lemma destroy_raises_on_numeric_not_decimal_witness :
  let three := String (ascii_of_N 179) EmptyString in
  let v := ("1," ++ three ++ ",x," ++ superscript_two ++ ",2")%string in
  let request := mkRequest JNull {[ "idList" := [v] ]} in
  tokens v = ["1"; three; "x"; superscript_two; "2"] /\
  destroy Reference.framework Reference.view request ∅ Reference.world
  = (Raise (ValueError three), Reference.world) /\
  exists before t' after,
    tokens v = before ++ t' :: after /\
    PyStr.isnumeric t' = true /\ PyStr.isdecimal t' = false /\
    (forall u, In u before -> PyStr.isnumeric u = true -> PyStr.isdecimal u = true) /\
    destroy Reference.framework Reference.view request ∅ Reference.world
    = (Raise (ValueError t'), Reference.world).
Proof.
  intros three v request. split; [reflexivity|]. split; [reflexivity|].
  apply (destroy_raises_on_numeric_not_decimal Reference.framework Reference.view
           request ∅ Reference.world v superscript_two).
  - reflexivity.
  - right. right. left. reflexivity.
  - reflexivity.
Defined.

Lemma unique_pks_filter (f : Obj -> bool) d :
  unique_pks d -> unique_pks (List.filter f d).
Proof.
  unfold unique_pks. induction d as [|r d IH]; simpl; [auto|].
  intros Hnd. apply NoDup_cons in Hnd as [Hnotin Hnd].
  destruct (f r); simpl; [|auto].
  apply NoDup_cons. split; [|auto].
  intros Hin. apply Hnotin.
  apply list_elem_of_In, in_map_iff in Hin as [r' [Hpk Hr']].
  apply filter_In in Hr' as [Hr' _].
  rewrite <- Hpk. apply list_elem_of_In, in_map, Hr'.
Qed.

(** X4.  For every [idList] whose numeric tokens are runs of decimal
    digits, [destroy] answers 204 and deletes exactly the rows of the
    filtered queryset whose primary key is the value of such a token;
    the rows left still have distinct primary keys.  The hooks are
    neutral, [delete_object] deletes by primary key and the serializer
    over the selected rows is valid and holds them. *)
Theorem destroy_deletes_named_rows (fw : Framework) (self : View)
    (request : Request) (kwargs : gmap string JSON) (w : World) (v : string) :
  delete_hooks_neutral self ->
  deletes_by_pk fw ->
  unique_pks (db w) ->
  query_get (QUERY_PARAMS request) "idList" = Some v ->
  (forall t, In t (numeric_tokens v) -> PyStr.isdecimal t = true) ->
  let ids := map (PyStr.decimal_value 0) (numeric_tokens v) in
  let rows := qs_eval (destroy_queryset self ids) (db w) in
  is_valid fw (destroy_serializer self rows) = true ->
  map obj_pk (object fw (destroy_serializer self rows)) = map obj_pk rows ->
  exists w',
    destroy fw self request kwargs w
    = (Return (mkResponse None HTTP_204_NO_CONTENT), w') /\
    unique_pks (db w') /\
    (forall r, In r (db w') <->
       In r (db w) /\
       ~ (filter_queryset self (get_queryset self) r = true /\
          exists p, obj_pk r = Some p /\ In (Z.pos p) ids)).
Proof.
  intros Hhooks Hdel Huniq Hget Hdec ids rows Hvalid Hobjs.
  destruct (destroy_parsed fw self request kwargs w v ids)
    as [w' [Hrun Hdb]]; auto using parse_id_list_decimal.
  exists w'. split; [exact Hrun|]. rewrite Hdb. split.
  - now apply unique_pks_filter.
  - intros r. rewrite filter_In. apply and_iff_compat_l.
    rewrite negb_true_iff, <- not_true_iff_false. apply not_iff_compat.
    unfold destroy_queryset, filter_pk_in. rewrite andb_true_iff.
    apply and_iff_compat_l. destruct (obj_pk r) as [p|].
    + rewrite mem_Z_In. split; [eauto|]. now intros [p' [[= <-] Hin]].
    + split; [discriminate|]. now intros [p [Hp _]].
Qed.

Lemma destroy_deletes_named_rows_witness :
  let request := Reference.request_with JNull [("idList", [" 05, x ,2,9"])] in
  numeric_tokens " 05, x ,2,9" = ["05"; "2"; "9"] /\
  exists w',
    destroy Reference.framework Reference.view request ∅ Reference.world
    = (Return (mkResponse None HTTP_204_NO_CONTENT), w') /\
    (In (Reference.row 4 "d") (db w') /\ ~ In (Reference.row 5 "e") (db w')).
Proof.
  intros request. split; [reflexivity|].
  assert (Hdec : forall t, In t (numeric_tokens " 05, x ,2,9") -> PyStr.isdecimal t = true).
  { intros t [<-|[<-|[<-|[]]]]; reflexivity. }
  destruct (destroy_deletes_named_rows Reference.framework Reference.view request ∅
              Reference.world " 05, x ,2,9" reference_delete_hooks_neutral
              reference_deletes_by_pk reference_unique_pks eq_refl Hdec
              eq_refl eq_refl) as [w' [Hrun [_ Hrows]]].
  exists w'. split; [exact Hrun|]. split.
  - apply Hrows. split; [simpl; tauto|].
    intros [_ [p [[= <-] Hin]]]. simpl in Hin.
    destruct Hin as [H|[H|[H|[]]]]; discriminate.
  - intros Hin. apply Hrows in Hin as [_ Hnot]. apply Hnot.
    split; [reflexivity|]. exists 5%positive. split; [reflexivity|].
    simpl. auto.
Defined.

(** X5.  When the serializer over the selected rows is not valid,
    [destroy] answers 400 with the serializer's errors; no hook and no
    [delete_object] is called and the table is as it was. *)
Theorem destroy_invalid_serializer (fw : Framework) (self : View)
    (request : Request) (kwargs : gmap string JSON) (w : World)
    (v : string) (ids : list Z) :
  query_get (QUERY_PARAMS request) "idList" = Some v ->
  parse_id_list v = Return ids ->
  let s := destroy_serializer self (qs_eval (destroy_queryset self ids) (db w)) in
  is_valid fw s = false ->
  destroy fw self request kwargs w
  = (Return (mkResponse (Some (errors fw s)) HTTP_400_BAD_REQUEST),
     mkWorld (db w) (trace w ++ [EvIsValid s false])).
Proof.
  intros Hget Hparse s Hvalid. unfold destroy. rewrite Hget.
  unfold bind at 1, lift. rewrite Hparse.
  unfold bind at 1, get_db. fold (destroy_queryset self ids). fold s.
  unfold bind, call_is_valid, observe. now rewrite Hvalid.
Qed.

(** X6.  A [destroy] that answers 204 has made exactly these calls, in
    this order: [is_valid], [pre_delete] on every object,
    [pre_bulk_delete], [delete_object] on every object,
    [post_bulk_delete], [post_delete] on every object.  Every
    [pre_delete] hook has run before the first row is deleted. *)
Theorem destroy_hook_order (fw : Framework) (self : View)
    (request : Request) (kwargs : gmap string JSON) (w w' : World)
    (resp : Response) :
  destroy fw self request kwargs w = (Return resp, w') ->
  resp_status resp = HTTP_204_NO_CONTENT ->
  exists s,
    is_valid fw s = true /\
    let objs := object fw s in
    trace w'
    = trace w ++ [EvIsValid s true]
      ++ map EvPreDelete objs ++ [EvPreBulkDelete objs]
      ++ map EvDeleteObject objs ++ [EvPostBulkDelete objs]
      ++ map EvPostDelete objs.
Proof.
  intros Hrun Hstatus. unfold destroy in Hrun.
  destruct (query_get (QUERY_PARAMS request) "idList") as [v|].
  2: { unfold ret in Hrun. injection Hrun as <- <-. discriminate. }
  unfold bind at 1, lift in Hrun.
  destruct (parse_id_list v) as [ids|e]; [|discriminate].
  unfold bind at 1, get_db in Hrun.
  set (s := destroy_serializer self _) in Hrun. exists s.
  unfold bind at 1, call_is_valid, observe in Hrun.
  destruct (is_valid fw s) eqn:Hvalid.
  2: { unfold ret in Hrun. injection Hrun as <- <-. discriminate. }
  split; [reflexivity|].
  apply bind_inv_Return in Hrun as [[] [w1 [Hpre Hrun]]].
  apply for_each_call_inv in Hpre as [_ Htr1].
  apply bind_inv_Return in Hrun as [[] [w2 [Hpreb Hrun]]].
  apply call_inv in Hpreb as [Htr2 _].
  apply bind_inv_Return in Hrun as [[] [w3 [Hdel Hrun]]].
  apply for_each_call_inv in Hdel as [_ Htr3].
  apply bind_inv_Return in Hrun as [[] [w4 [Hpostb Hrun]]].
  apply call_inv in Hpostb as [Htr4 _].
  apply bind_inv_Return in Hrun as [[] [w5 [Hpost Hrun]]].
  apply for_each_call_inv in Hpost as [_ Htr5].
  unfold ret in Hrun. injection Hrun as _ <-.
  simpl. rewrite Htr5, Htr4, Htr3, Htr2, Htr1. simpl.
  repeat rewrite <- app_assoc. reflexivity.
Qed.

(** X7.  When a [pre_delete] hook raises on some object, having
    returned on the objects before it, [destroy] ends in that exception
    and has called [delete_object] on nothing: the calls made are the
    validation and the [pre_delete] calls up to that object. *)
Theorem destroy_pre_delete_raises (fw : Framework) (self : View)
    (request : Request) (kwargs : gmap string JSON) (w : World)
    (v : string) (ids : list Z) (before after : list Obj) (o : Obj)
    (e : Exn) (d1 d2 : DB) :
  query_get (QUERY_PARAMS request) "idList" = Some v ->
  parse_id_list v = Return ids ->
  let s := destroy_serializer self (qs_eval (destroy_queryset self ids) (db w)) in
  is_valid fw s = true ->
  object fw s = before ++ o :: after ->
  each_effect (pre_delete self) before (db w) = (Return tt, d1) ->
  pre_delete self o d1 = (Raise e, d2) ->
  destroy fw self request kwargs w
  = (Raise e,
     mkWorld d2 (trace w ++ EvIsValid s true :: map EvPreDelete before
                 ++ [EvPreDelete o])).
Proof.
  intros Hget Hparse s Hvalid Hobjs Hbefore Hraise.
  unfold destroy. rewrite Hget.
  unfold bind at 1, lift. rewrite Hparse.
  unfold bind at 1, get_db. fold (destroy_queryset self ids). fold s.
  unfold bind at 1, call_is_valid, observe. rewrite Hvalid, Hobjs.
  unfold bind at 1.
  rewrite (for_each_call_Raise EvPreDelete (pre_delete self) before o after
             (mkWorld (db w) (trace w ++ [EvIsValid s true])) d1 e d2
             Hbefore Hraise).
  simpl. now rewrite <- app_assoc.
Qed.

Lemma destroy_invalid_serializer_witness :
  let request := Reference.request_with JNull [("idList", ["1,2"])] in
  let s := destroy_serializer Views.code_view [Reference.row 1 "a"; Reference.row 2 "b"] in
  is_valid Reference.framework s = false /\
  destroy Reference.framework Views.code_view request ∅ Reference.world
  = (Return (mkResponse (Some (errors Reference.framework s)) HTTP_400_BAD_REQUEST),
     mkWorld Reference.table [EvIsValid s false]).
Proof.
  intros request s.
  assert (Hvalid : is_valid Reference.framework s = false) by reflexivity.
  split; [exact Hvalid|].
  apply (destroy_invalid_serializer Reference.framework Views.code_view request ∅
           Reference.world "1,2" [1; 2]); [reflexivity|reflexivity|exact Hvalid].
Defined.

Lemma destroy_hook_order_witness :
  let request := Reference.request_with JNull [("idList", ["1,2"])] in
  let run := destroy Reference.framework Reference.view request ∅ Reference.world in
  let resp := mkResponse None HTTP_204_NO_CONTENT in
  run = (Return resp, snd run) /\
  exists s,
    is_valid Reference.framework s = true /\
    let objs := object Reference.framework s in
    trace (snd run)
    = trace Reference.world ++ [EvIsValid s true]
      ++ map EvPreDelete objs ++ [EvPreBulkDelete objs]
      ++ map EvDeleteObject objs ++ [EvPostBulkDelete objs]
      ++ map EvPostDelete objs.
Proof.
  intros request run resp.
  assert (Hrun : run = (Return resp, snd run)) by reflexivity.
  split; [exact Hrun|].
  pose proof (destroy_hook_order Reference.framework Reference.view request ∅
                Reference.world (snd run) resp Hrun) as Horder.
  exact (Horder eq_refl).
Defined.

Lemma destroy_pre_delete_raises_witness :
  let request := Reference.request_with JNull [("idList", ["1,2,3"])] in
  let s := destroy_serializer Views.guarded_delete_view
             [Reference.row 1 "a"; Reference.row 2 "b"; Reference.row 3 "c"] in
  destroy Reference.framework Views.guarded_delete_view request ∅ Reference.world
  = (Raise (OtherError "PermissionDenied"),
     mkWorld Reference.table
       [EvIsValid s true; EvPreDelete (Reference.row 1 "a");
        EvPreDelete (Reference.row 2 "b")]).
Proof.
  intros request s.
  assert (Hvalid : is_valid Reference.framework s = true) by reflexivity.
  assert (Hobjs : object Reference.framework s
                  = [Reference.row 1 "a"] ++ Reference.row 2 "b" :: [Reference.row 3 "c"])
    by reflexivity.
  apply (destroy_pre_delete_raises Reference.framework Views.guarded_delete_view
           request ∅ Reference.world "1,2,3" [1; 2; 3]
           [Reference.row 1 "a"] [Reference.row 3 "c"] (Reference.row 2 "b")
           (OtherError "PermissionDenied") Reference.table Reference.table);
    [reflexivity|reflexivity|exact Hvalid|exact Hobjs|reflexivity|reflexivity].
Defined.

Lemma destroy_nothing_selected fw self request kwargs w v ids :
  neutral (pre_bulk_delete self) ->
  neutral (post_bulk_delete self) ->
  query_get (QUERY_PARAMS request) "idList" = Some v ->
  parse_id_list v = Return ids ->
  qs_eval (destroy_queryset self ids) (db w) = [] ->
  is_valid fw (destroy_serializer self []) = true ->
  object fw (destroy_serializer self []) = [] ->
  exists w',
    destroy fw self request kwargs w
    = (Return (mkResponse None HTTP_204_NO_CONTENT), w') /\
    db w' = db w.
Proof.
  intros Hpreb Hpostb Hget Hparse Hrows Hvalid Hobjs.
  unfold destroy. rewrite Hget.
  unfold bind at 1, lift. rewrite Hparse.
  unfold bind at 1, get_db. fold (destroy_queryset self ids). rewrite Hrows.
  unfold bind at 1, call_is_valid, observe. rewrite Hvalid, Hobjs. simpl.
  unfold bind, call, ret. simpl. rewrite Hpreb, Hpostb.
  eexists. split; reflexivity.
Qed.

Lemma filter_rejected_nil {A} (f : A -> bool) l :
  List.filter f (List.filter (fun x => negb (f x)) l) = [].
Proof.
  induction l as [|x l IH]; simpl; [reflexivity|].
  destruct (f x) eqn:Hx; simpl; [exact IH|]. now rewrite Hx.
Qed.

(** X8.  [destroy] is idempotent: sent again after it succeeded, the
    same request answers 204 again and deletes nothing more, because
    the rows it names are gone.  The contracts are those of the first
    run, and the serializer over no rows is valid and holds none. *)
Theorem destroy_twice (fw : Framework) (self : View)
    (request : Request) (kwargs : gmap string JSON) (w : World)
    (v : string) (ids : list Z) :
  delete_hooks_neutral self ->
  deletes_by_pk fw ->
  unique_pks (db w) ->
  query_get (QUERY_PARAMS request) "idList" = Some v ->
  parse_id_list v = Return ids ->
  let rows := qs_eval (destroy_queryset self ids) (db w) in
  is_valid fw (destroy_serializer self rows) = true ->
  map obj_pk (object fw (destroy_serializer self rows)) = map obj_pk rows ->
  is_valid fw (destroy_serializer self []) = true ->
  object fw (destroy_serializer self []) = [] ->
  exists w' w'',
    destroy fw self request kwargs w
    = (Return (mkResponse None HTTP_204_NO_CONTENT), w') /\
    destroy fw self request kwargs w'
    = (Return (mkResponse None HTTP_204_NO_CONTENT), w'') /\
    db w'' = db w'.
Proof.
  intros Hhooks Hdel Huniq Hget Hparse rows Hvalid Hobjs Hvalid0 Hobjs0.
  destruct (destroy_parsed fw self request kwargs w v ids)
    as [w' [Hrun Hdb]]; auto.
  destruct Hhooks as (_ & Hpreb & Hpostb & _).
  destruct (destroy_nothing_selected fw self request kwargs w' v ids)
    as [w'' [Hrun' Hdb']]; auto.
  { rewrite Hdb. apply filter_rejected_nil. }
  eauto.
Qed.

Lemma destroy_twice_witness :
  let request := Reference.request_with JNull [("idList", ["2,4"])] in
  exists w' w'',
    destroy Reference.framework Reference.view request ∅ Reference.world
    = (Return (mkResponse None HTTP_204_NO_CONTENT), w') /\
    destroy Reference.framework Reference.view request ∅ w'
    = (Return (mkResponse None HTTP_204_NO_CONTENT), w'') /\
    db w'' = db w'.
Proof.
  intros request.
  apply (destroy_twice Reference.framework Reference.view request ∅
           Reference.world "2,4" [2; 4] reference_delete_hooks_neutral
           reference_deletes_by_pk reference_unique_pks);
    reflexivity.
Defined.

Lemma filter_pk_in_same_ids ids ids' qs r :
  (forall z, In z ids <-> In z ids') ->
  filter_pk_in ids qs r = filter_pk_in ids' qs r.
Proof.
  intros Hsame. unfold filter_pk_in. f_equal.
  destruct (obj_pk r) as [p|]; [|reflexivity].
  apply eq_true_iff_eq. rewrite !mem_Z_In. apply Hsame.
Qed.

(** X9.  What [destroy] deletes depends on which identifiers [idList]
    names, not on their order or on repetitions: two requests whose
    parsed lists have the same elements leave the same table. *)
Theorem destroy_same_identifiers (fw : Framework) (self : View)
    (request request' : Request) (kwargs : gmap string JSON) (w : World)
    (v v' : string) (ids ids' : list Z) :
  delete_hooks_neutral self ->
  deletes_by_pk fw ->
  unique_pks (db w) ->
  query_get (QUERY_PARAMS request) "idList" = Some v ->
  query_get (QUERY_PARAMS request') "idList" = Some v' ->
  parse_id_list v = Return ids ->
  parse_id_list v' = Return ids' ->
  (forall z, In z ids <-> In z ids') ->
  let rows := qs_eval (destroy_queryset self ids) (db w) in
  is_valid fw (destroy_serializer self rows) = true ->
  map obj_pk (object fw (destroy_serializer self rows)) = map obj_pk rows ->
  exists w1 w2,
    destroy fw self request kwargs w
    = (Return (mkResponse None HTTP_204_NO_CONTENT), w1) /\
    destroy fw self request' kwargs w
    = (Return (mkResponse None HTTP_204_NO_CONTENT), w2) /\
    db w1 = db w2.
Proof.
  intros Hhooks Hdel Huniq Hget Hget' Hparse Hparse' Hsame rows Hvalid Hobjs.
  assert (Hrows : qs_eval (destroy_queryset self ids') (db w) = rows).
  { unfold rows, qs_eval. apply filter_ext. intros r. symmetry.
    now apply filter_pk_in_same_ids. }
  destruct (destroy_parsed fw self request kwargs w v ids)
    as [w1 [Hrun1 Hdb1]]; auto.
  destruct (destroy_parsed fw self request' kwargs w v' ids')
    as [w2 [Hrun2 Hdb2]]; auto; try (rewrite Hrows; assumption).
  exists w1, w2. split; [exact Hrun1|]. split; [exact Hrun2|].
  rewrite Hdb1, Hdb2. apply filter_ext. intros r. f_equal.
  now apply filter_pk_in_same_ids.
Qed.

Lemma destroy_same_identifiers_witness :
  let request := Reference.request_with JNull [("idList", ["1,3"])] in
  let request' := Reference.request_with JNull [("idList", [" 3,1, 03,,1"])] in
  exists w1 w2,
    destroy Reference.framework Reference.view request ∅ Reference.world
    = (Return (mkResponse None HTTP_204_NO_CONTENT), w1) /\
    destroy Reference.framework Reference.view request' ∅ Reference.world
    = (Return (mkResponse None HTTP_204_NO_CONTENT), w2) /\
    db w1 = db w2.
Proof.
  intros request request'.
  apply (destroy_same_identifiers Reference.framework Reference.view
           request request' ∅ Reference.world "1,3" " 3,1, 03,,1"
           [1; 3] [3; 1; 3; 1] reference_delete_hooks_neutral
           reference_deletes_by_pk reference_unique_pks);
    try reflexivity.
  intros z. simpl. tauto.
Defined.

(** ** More on [bulk_update] *)

Lemma appends_try {A} P (body : M A) (handler : JSON -> M A) :
  appends P body -> (forall d, appends P (handler d)) ->
  appends P (try_except_ValidationError body handler).
Proof.
  intros Hbody Hhandler w. unfold try_except_ValidationError.
  destruct (Hbody w) as [evs [Htr Hall]].
  destruct (body w) as [[a|e] w1]; simpl in *; [eauto|].
  destruct e as [[d|]| | | |]; simpl; eauto.
  destruct (Hhandler d w1) as [evs' [Htr' Hall']].
  exists (evs ++ evs'). rewrite Htr', Htr, <- app_assoc.
  split; [reflexivity|]. apply Forall_app; auto.
Qed.


(** Every run of [bulk_update]: validation first, and a [save], if
    any, on the validated serializer as a forced update. *)
Lemma bulk_update_run fw self request kwargs w :
  let s := update_serializer self request kwargs (db w) in
  exists evs,
    trace (snd (bulk_update fw self request kwargs w))
    = trace w ++ EvIsValid s (is_valid fw s) :: evs /\
    Forall (save_with s (mkSave false true)) evs.
Proof.
  intros s. unfold bulk_update. unfold bind at 1, get_db.
  fold (update_serializer self request kwargs (db w)). fold s.
  unfold bind at 1, call_is_valid, observe.
  destruct (is_valid fw s).
  - match goal with |- context [snd (?m ?w1)] =>
      assert (Happ : appends (save_with s (mkSave false true)) m) end.
    { apply appends_bind.
      - apply appends_try; [|intros d; apply appends_ret]. appends_calls.
      - intros [response|]; appends_calls. }
    match goal with |- context [snd (?m ?w1)] =>
      destruct (Happ w1) as [evs [Htr Hall]] end.
    exists evs. rewrite Htr. simpl. rewrite <- app_assoc. auto.
  - exists []. simpl. auto.
Qed.

(** X10.  [bulk_update] never inserts: in every run, however it ends,
    the first call is [is_valid] on the [many=True] serializer over the
    filtered queryset, and every call of [serializer.save] is on that
    serializer with [force_update=True] and without [force_insert]. *)
Theorem bulk_update_forces_update (fw : Framework) (self : View)
    (request : Request) (kwargs : gmap string JSON) (w : World) :
  exists s evs,
    ser_instance s = Some (qs_eval (filter_queryset self (get_queryset self)) (db w)) /\
    ser_init_data s = DATA request /\ ser_many s = true /\
    ser_allow_add_remove s = false /\
    trace (snd (bulk_update fw self request kwargs w))
    = trace w ++ EvIsValid s (is_valid fw s) :: evs /\
    (forall s' kw, In (EvSave s' kw) evs ->
       s' = s /\ force_insert kw = false /\ force_update kw = true).
Proof.
  destruct (bulk_update_run fw self request kwargs w) as [evs [Htr Hall]].
  exists (update_serializer self request kwargs (db w)), evs.
  do 4 (split; [reflexivity|]). split; [exact Htr|].
  intros s' kw Hin. rewrite Forall_forall in Hall.
  apply list_elem_of_In, Hall in Hin. destruct Hin as [-> ->]. auto.
Qed.

(** X11.  When validation fails, [bulk_update] answers 400 with the
    serializer's errors; no hook and no [save] is called and the table
    is as it was. *)
Theorem bulk_update_invalid (fw : Framework) (self : View)
    (request : Request) (kwargs : gmap string JSON) (w : World) :
  let s := update_serializer self request kwargs (db w) in
  is_valid fw s = false ->
  bulk_update fw self request kwargs w
  = (Return (mkResponse (Some (errors fw s)) HTTP_400_BAD_REQUEST),
     mkWorld (db w) (trace w ++ [EvIsValid s false])).
Proof.
  intros s Hvalid. unfold bulk_update. unfold bind at 1, get_db.
  fold (update_serializer self request kwargs (db w)). fold s.
  unfold bind, call_is_valid, observe. now rewrite Hvalid.
Qed.

Lemma bulk_update_invalid_witness :
  let request := Reference.request_with
                   (JList [JDict [("id", JNum 9); ("name", JStr "z")]]) [] in
  let s := update_serializer Reference.view request ∅ Reference.table in
  is_valid Reference.framework s = false /\
  bulk_update Reference.framework Reference.view request ∅ Reference.world
  = (Return (mkResponse (Some (errors Reference.framework s)) HTTP_400_BAD_REQUEST),
     mkWorld Reference.table [EvIsValid s false]).
Proof.
  intros request s.
  assert (Hvalid : is_valid Reference.framework s = false) by reflexivity.
  split; [exact Hvalid|].
  apply (bulk_update_invalid Reference.framework Reference.view request ∅
           Reference.world Hvalid).
Defined.



(** X13.  The [try] of [bulk_update] covers the per-item [pre_save]
    loop only: an exception raised by [pre_bulk_update], a validation
    error included, is not turned into a 400.  It ends the handler,
    after the validation and the hook calls and before any [save]. *)
Theorem bulk_update_pre_bulk_update_raises (fw : Framework) (self : View)
    (request : Request) (kwargs : gmap string JSON) (w : World)
    (e : Exn) (d1 d2 : DB) :
  let s := update_serializer self request kwargs (db w) in
  is_valid fw s = true ->
  each_effect (pre_save self) (object fw s) (db w) = (Return tt, d1) ->
  pre_bulk_update self (object fw s) d1 = (Raise e, d2) ->
  bulk_update fw self request kwargs w
  = (Raise e,
     mkWorld d2 (trace w ++ EvIsValid s true :: map EvPreSave (object fw s)
                 ++ [EvPreBulkUpdate (object fw s)])).
Proof.
  intros s Hvalid Hpre Hraise. unfold bulk_update. unfold bind at 1, get_db.
  fold (update_serializer self request kwargs (db w)). fold s.
  unfold bind at 1, call_is_valid, observe. rewrite Hvalid.
  unfold bind at 1, try_except_ValidationError. unfold bind at 1.
  rewrite (for_each_call_Return EvPreSave (pre_save self) (object fw s)
             (mkWorld (db w) (trace w ++ [EvIsValid s true])) d1 Hpre).
  unfold ret at 1. unfold bind at 1, call at 1. simpl db. rewrite Hraise.
  simpl. repeat rewrite <- app_assoc. reflexivity.
Qed.

Lemma bulk_update_pre_bulk_update_raises_witness :
  let request := Reference.request_with
                   (JList [JDict [("id", JNum 2); ("name", JStr "y")]]) [] in
  let s := update_serializer Views.batch_cleaning_view request ∅ Reference.table in
  bulk_update Reference.framework Views.batch_cleaning_view request ∅ Reference.world
  = (Raise (ValidationError (Some Reference.blank_name)),
     mkWorld Reference.table
       [EvIsValid s true; EvPreSave (Reference.row 2 "y");
        EvPreBulkUpdate [Reference.row 2 "y"]]).
Proof.
  intros request s.
  assert (Hvalid : is_valid Reference.framework s = true) by reflexivity.
  apply (bulk_update_pre_bulk_update_raises Reference.framework
           Views.batch_cleaning_view request ∅ Reference.world
           (ValidationError (Some Reference.blank_name))
           Reference.table Reference.table Hvalid);
    reflexivity.
Defined.

(** X14.  An exception of [pre_save] that is not a validation error is
    not caught: [bulk_update] ends in it, having called [pre_save] up
    to that object and nothing after. *)
Theorem bulk_update_pre_save_raises_other (fw : Framework) (self : View)
    (request : Request) (kwargs : gmap string JSON) (w : World)
    (before after : list Obj) (o : Obj) (e : Exn) (d1 d2 : DB) :
  let s := update_serializer self request kwargs (db w) in
  is_valid fw s = true ->
  object fw s = before ++ o :: after ->
  each_effect (pre_save self) before (db w) = (Return tt, d1) ->
  pre_save self o d1 = (Raise e, d2) ->
  (forall md, e <> ValidationError md) ->
  bulk_update fw self request kwargs w
  = (Raise e,
     mkWorld d2 (trace w ++ EvIsValid s true :: map EvPreSave before
                 ++ [EvPreSave o])).
Proof.
  intros s Hvalid Hobjs Hbefore Hraise Hother.
  unfold bulk_update. unfold bind at 1, get_db.
  fold (update_serializer self request kwargs (db w)). fold s.
  unfold bind at 1, call_is_valid, observe. rewrite Hvalid, Hobjs.
  unfold bind at 1, try_except_ValidationError. unfold bind at 1.
  rewrite (for_each_call_Raise EvPreSave (pre_save self) before o after
             (mkWorld (db w) (trace w ++ [EvIsValid s true])) d1 e d2
             Hbefore Hraise).
  destruct e as [md| | | |]; [now destruct (Hother md)| | | |];
    simpl; now rewrite <- app_assoc.
Qed.

Lemma bulk_update_pre_save_raises_other_witness :
  let request := Reference.request_with
                   (JList [JDict [("id", JNum 1); ("name", JStr "x")];
                           JDict [("id", JNum 2); ("name", JStr "y")]]) [] in
  let s := update_serializer Views.guarded_save_view request ∅ Reference.table in
  bulk_update Reference.framework Views.guarded_save_view request ∅ Reference.world
  = (Raise (OtherError "PermissionDenied"),
     mkWorld Reference.table
       [EvIsValid s true; EvPreSave (Reference.row 1 "x");
        EvPreSave (Reference.row 2 "y")]).
Proof.
  intros request s.
  assert (Hvalid : is_valid Reference.framework s = true) by reflexivity.
  assert (Hobjs : object Reference.framework s
                  = [Reference.row 1 "x"] ++ Reference.row 2 "y" :: [])
    by reflexivity.
  apply (bulk_update_pre_save_raises_other Reference.framework
           Views.guarded_save_view request ∅ Reference.world
           [Reference.row 1 "x"] [] (Reference.row 2 "y")
           (OtherError "PermissionDenied") Reference.table Reference.table
           Hvalid Hobjs); [reflexivity|reflexivity|discriminate].
Defined.

(** X15.  [partial_bulk_update] always validates a partial serializer:
    whatever [partial] the caller passed, the first call is [is_valid]
    on the [many=True] serializer over the filtered queryset with
    [partial=True], and every [save] is a forced update on it. *)
Theorem partial_bulk_update_is_partial (fw : Framework) (self : View)
    (request : Request) (kwargs : gmap string JSON) (w : World) :
  let s := get_serializer
             (Some (qs_eval (filter_queryset self (get_queryset self)) (db w)))
             (DATA request) true true false in
  exists evs,
    trace (snd (partial_bulk_update fw self request kwargs w))
    = trace w ++ EvIsValid s (is_valid fw s) :: evs /\
    Forall (save_with s (mkSave false true)) evs.
Proof.
  intros s. unfold partial_bulk_update.
  destruct (bulk_update_run fw self request (<["partial" := JBool true]> kwargs) w)
    as [evs [Htr Hall]].
  unfold update_serializer in Htr, Hall.
  rewrite lookup_insert_eq in Htr, Hall. simpl in Htr, Hall.
  exists evs. auto.
Qed.

(** ** More on [create] *)

Lemma create_bulk_choose {B} fw self request kwargs (tail : Serializer -> M B) w s :
  create_serializer fw self request kwargs (db w) = Return s ->
  bind (if truthy (effective_allow_update self kwargs)
        then bind (lift (py_iter (DATA request)))
               (fun items =>
                  bind get_db (fun d =>
                    ret (get_serializer
                           (Some (qs_eval (filter_pk_in_values fw (collect_ids fw items)
                                    (filter_queryset self (get_queryset self))) d))
                           (DATA request) true false true)))
        else ret (get_serializer None (DATA request) true false false)) tail w
  = tail s w.
Proof.
  unfold create_serializer. destruct (truthy (effective_allow_update self kwargs)).
  - unfold bind at 1 2, lift. destruct (py_iter (DATA request)); [|discriminate].
    now intros [= <-].
  - now intros [= <-].
Qed.

Lemma create_serializer_cases fw self request kwargs w s :
  create_serializer fw self request kwargs (db w) = Return s ->
  truthy (effective_allow_update self kwargs) = false /\
  s = get_serializer None (DATA request) true false false
  \/
  truthy (effective_allow_update self kwargs) = true /\
  exists items, py_iter (DATA request) = Return items /\
    s = get_serializer (Some (update_target fw self items (db w)))
                       (DATA request) true false true.
Proof.
  unfold create_serializer. destruct (truthy (effective_allow_update self kwargs)).
  - destruct (py_iter (DATA request)) as [items|e]; [|discriminate].
    intros [= <-]. right. eauto.
  - intros [= <-]. left. auto.
Qed.

(** X16.  [create] has no [try] around its [pre_save] loop: when the
    hook raises on some object, a validation error included, the bulk
    create ends in that exception instead of answering 400, and
    [serializer.save] is not called. *)
Theorem create_pre_save_raises (fw : Framework) (self : View)
    (request : Request) (kwargs : gmap string JSON) (w : World)
    (s : Serializer) (before after : list Obj) (o : Obj) (e : Exn) (d1 d2 : DB) :
  bulk_path self request kwargs = true ->
  create_serializer fw self request kwargs (db w) = Return s ->
  is_valid fw s = true ->
  object fw s = before ++ o :: after ->
  each_effect (pre_save self) before (db w) = (Return tt, d1) ->
  pre_save self o d1 = (Raise e, d2) ->
  create fw self request kwargs w
  = (Raise e,
     mkWorld d2 (trace w ++ EvIsValid s true :: map EvPreSave before
                 ++ [EvPreSave o])).
Proof.
  intros Hbulk Hser Hvalid Hobjs Hbefore Hraise. unfold create.
  rewrite (bulk_path_condition _ _ _ Hbulk), lookup_allow_update.
  fold (effective_allow_update self kwargs).
  rewrite (create_bulk_choose fw self request kwargs _ w s Hser).
  unfold bind at 1, call_is_valid, observe. rewrite Hvalid, Hobjs.
  unfold bind at 1.
  rewrite (for_each_call_Raise EvPreSave (pre_save self) before o after
             (mkWorld (db w) (trace w ++ [EvIsValid s true])) d1 e d2
             Hbefore Hraise).
  simpl. now rewrite <- app_assoc.
Qed.

Lemma create_pre_save_raises_witness :
  let request := Reference.request_with
                   (JList [JDict [("name", JStr "x")]; JDict [("name", JStr "")]]) [] in
  let s := get_serializer None (DATA request) true false false in
  let x := mkObj None (JDict [("name", JStr "x")]) in
  let blank := mkObj None (JDict [("name", JStr "")]) in
  create Reference.framework Reference.cleaning_view request ∅ Reference.world
  = (Raise (ValidationError (Some Reference.blank_name)),
     mkWorld Reference.table [EvIsValid s true; EvPreSave x; EvPreSave blank]).
Proof.
  intros request s x blank.
  assert (Hvalid : is_valid Reference.framework s = true) by reflexivity.
  assert (Hobjs : object Reference.framework s = [x] ++ blank :: []) by reflexivity.
  apply (create_pre_save_raises Reference.framework Reference.cleaning_view
           request ∅ Reference.world s [x] [] blank
           (ValidationError (Some Reference.blank_name))
           Reference.table Reference.table);
    [reflexivity|reflexivity|exact Hvalid|exact Hobjs|reflexivity|reflexivity].
Defined.

(** X17.  With updates allowed, [create] iterates the payload before
    anything else: when bulk mode is forced on a payload that cannot be
    iterated (a number, a boolean, null), the handler ends in the
    [TypeError] of the iteration with the world as it was. *)
Theorem create_payload_not_iterable (fw : Framework) (self : View)
    (request : Request) (kwargs : gmap string JSON) (w : World) (e : Exn) :
  bulk_path self request kwargs = true ->
  truthy (effective_allow_update self kwargs) = true ->
  py_iter (DATA request) = Raise e ->
  create fw self request kwargs w = (Raise e, w).
Proof.
  intros Hbulk Hallow Hiter. unfold create.
  rewrite (bulk_path_condition _ _ _ Hbulk), lookup_allow_update.
  fold (effective_allow_update self kwargs). rewrite Hallow.
  unfold bind at 1 2, lift. now rewrite Hiter.
Qed.

Lemma create_payload_not_iterable_witness :
  let request := Reference.request_with (JNum 7) [] in
  create Reference.framework Views.forced_update_view request ∅ Reference.world
  = (Raise TypeError, Reference.world).
Proof.
  intros request.
  apply (create_payload_not_iterable Reference.framework Views.forced_update_view
           request ∅ Reference.world TypeError); reflexivity.
Defined.

(** X18.  Without [post_allow_update] a bulk create only inserts: the
    serializer it validates has no instances, and every call of
    [serializer.save], in every run, is on it with [force_insert=True]. *)
Theorem create_forces_insert (fw : Framework) (self : View)
    (request : Request) (kwargs : gmap string JSON) (w : World) :
  bulk_path self request kwargs = true ->
  truthy (effective_allow_update self kwargs) = false ->
  let s := get_serializer None (DATA request) true false false in
  exists evs,
    trace (snd (create fw self request kwargs w))
    = trace w ++ EvIsValid s (is_valid fw s) :: evs /\
    Forall (save_with s (mkSave true false)) evs.
Proof.
  intros Hbulk Hallow s.
  destruct (create_bulk_run fw self request kwargs w s Hbulk) as [Hrun _].
  - left. auto.
  - rewrite Hallow in Hrun. exact Hrun.
Qed.

Lemma create_forces_insert_witness :
  let request := Reference.request_with
                   (JList [JDict [("id", JNum 2); ("name", JStr "y")]]) [] in
  let s := get_serializer None (DATA request) true false false in
  exists evs,
    trace (snd (create Reference.framework Reference.view request ∅ Reference.world))
    = trace Reference.world ++ EvIsValid s (is_valid Reference.framework s) :: evs /\
    Forall (save_with s (mkSave true false)) evs.
Proof.
  intros request s.
  apply (create_forces_insert Reference.framework Reference.view request ∅
           Reference.world); reflexivity.
Defined.

(** X19.  On its bulk path [create] never calls the superclass's
    [create]: none of the calls of any run is that one. *)
Theorem create_bulk_never_delegates (fw : Framework) (self : View)
    (request : Request) (kwargs : gmap string JSON) (w : World) :
  bulk_path self request kwargs = true ->
  exists evs,
    trace (snd (create fw self request kwargs w)) = trace w ++ evs /\
    Forall (fun e => is_super_create e = false) evs.
Proof.
  intros Hbulk. unfold create.
  rewrite (bulk_path_condition _ _ _ Hbulk), lookup_allow_update.
  fold (effective_allow_update self kwargs).
  match goal with |- context [snd (?m w)] =>
    assert (Happ : appends (fun e => is_super_create e = false) m) end.
  { apply appends_bind.
    - destruct (truthy (effective_allow_update self kwargs)); [|apply appends_ret].
      apply appends_bind; [apply appends_lift|intros items].
      apply appends_bind; [|intros d; apply appends_ret].
      intros w0. exists []. simpl. now rewrite app_nil_r.
    - intros s. apply appends_bind.
      + intros w0. eexists [_]. simpl. split; [reflexivity|]. repeat constructor.
      + intros [|]; appends_calls. }
  apply Happ.
Qed.

Lemma create_bulk_never_delegates_witness :
  let request := Reference.request_with (JDict [("name", JStr "x")]) [] in
  bulk_path Views.forced_update_view request ∅ = true /\
  exists evs,
    trace (snd (create Reference.framework Views.forced_update_view request ∅
                  Reference.world))
    = trace Reference.world ++ evs /\
    Forall (fun e => is_super_create e = false) evs.
Proof.
  intros request. split; [reflexivity|].
  apply (create_bulk_never_delegates Reference.framework Views.forced_update_view
           request ∅ Reference.world). reflexivity.
Defined.

(** X20.  On the bulk path, forced or not, a failed validation ends
    [create] with 400 and the serializer's errors: no hook and no
    [save] is called and the table is as it was.  With bulk mode forced
    this is also what a payload that is not a list meets. *)
Theorem create_bulk_invalid (fw : Framework) (self : View)
    (request : Request) (kwargs : gmap string JSON) (w : World)
    (s : Serializer) :
  bulk_path self request kwargs = true ->
  create_serializer fw self request kwargs (db w) = Return s ->
  is_valid fw s = false ->
  create fw self request kwargs w
  = (Return (mkResponse (Some (errors fw s)) HTTP_400_BAD_REQUEST),
     mkWorld (db w) (trace w ++ [EvIsValid s false])).
Proof.
  intros Hbulk Hser Hvalid.
  apply create_serializer_cases in Hser.
  destruct (create_bulk_run fw self request kwargs w s Hbulk Hser) as [_ Hfail].
  now apply Hfail.
Qed.

Lemma create_bulk_invalid_witness :
  let request := Reference.request_with (JDict [("name", JStr "x")]) [] in
  let kwargs : gmap string JSON := {[ "post_force_bulk" := JBool true ]} in
  let s := get_serializer None (DATA request) true false false in
  is_list (DATA request) = false /\
  create Reference.framework Reference.view request kwargs Reference.world
  = (Return (mkResponse (Some (errors Reference.framework s)) HTTP_400_BAD_REQUEST),
     mkWorld Reference.table [EvIsValid s false]).
Proof.
  intros request kwargs s. split; [reflexivity|].
  apply (create_bulk_invalid Reference.framework Reference.view request kwargs
           Reference.world s); reflexivity.
Defined.

(** ** The failing cases at the reference host *)

Lemma bulk_update_pre_save_ValidationError_without_mapping_witness :
  let request := Reference.request_with
                   (JList [JDict [("id", JNum 1); ("name", JStr "z")];
                           JDict [("id", JNum 2); ("name", JStr "y")]]) [] in
  let s := update_serializer Views.message_error_view request ∅ Reference.table in
  bulk_update Reference.framework Views.message_error_view request ∅ Reference.world
  = (Raise (AttributeError "message_dict"),
     mkWorld Reference.table
       [EvIsValid s true; EvPreSave (Reference.row 1 "z");
        EvPreSave (Reference.row 2 "y")]).
Proof.
  intros request s.
  assert (Hvalid : is_valid Reference.framework s = true) by reflexivity.
  assert (Hobjs : object Reference.framework s
                  = [Reference.row 1 "z"] ++ Reference.row 2 "y" :: [])
    by reflexivity.
  apply (bulk_update_pre_save_ValidationError_without_mapping Reference.framework
           Views.message_error_view request ∅ Reference.world
           [Reference.row 1 "z"] [] (Reference.row 2 "y")
           Reference.table Reference.table Hvalid Hobjs);
    reflexivity.
Defined.

(** A bulk POST with updates allowed that names row 2 twice: the first
    item updates the row, the second finds it taken and is inserted as
    row 6. *)
Example reference_repeated_identity :
  let items := [JDict [("id", JNum 2); ("name", JStr "y")];
                JDict [("id", JNum 2); ("name", JStr "z")]] in
  let run := create Reference.framework Reference.view
               (Reference.request_with (JList items) [])
               {[ "post_allow_update" := JBool true ]} Reference.world in
  db (snd run)
  = [Reference.row 1 "a"; Reference.row 2 "y"; Reference.row 3 "c";
     Reference.row 4 "d"; Reference.row 5 "e"; Reference.row 6 "z"].
Proof. reflexivity. Qed.
